(** * LS1024A PCIe root-complex glue driver
    (drivers/pci/controller/dwc/pcie-ls1024a.c)

    A shallow embedding of the driver: every C function is a computation in
    a small monad that performs calls into the rest of the kernel (regmap,
    reset, PHY, clock, irqdomain ...), records them in a trace and may stop
    on a kernel BUG.  What the rest of the kernel and the hardware answer is
    a parameter (class [Kernel]); the [board] instance further down is one
    concrete machine, with a register file, reset lines and fault
    injection. *)

From Stdlib Require Import ZArith Lia List String.
From stdpp Require Import base option gmap.
Import ListNotations.
Local Open Scope Z_scope.

(** ** Machine integers *)

(** [unsigned int] / [u32]: arithmetic modulo 2^32. *)
Definition u32 (x : Z) : Z := x mod 2 ^ 32.

(** [BIT(nr)] is [1UL << nr] (linux/bits.h). *)
Definition BIT (nr : Z) : Z := Z.shiftl 1 nr.

(** [~x] on a 32-bit unsigned operand. *)
Definition not32 (x : Z) : Z := u32 (Z.lnot x).

(** ** Register layout and bit names (lines 34-77 of the source) *)

Definition PCIEx_CFGx (port reg : Z) : Z := u32 (port * 0x20 + reg * 0x4).
Definition PCIEx_STSx (port reg : Z) : Z := u32 (0x40 + port * 0xc + reg * 0x4).
Definition PCIEx_STS3 (port : Z) : Z := u32 (0x58 + port * 0x4).
Definition PCIEx_INTR_STS (port : Z) : Z := u32 (0x100 + port * 0x10).
Definition PCIEx_INTR_EN (port : Z) : Z := u32 (0x104 + port * 0x10).

Definition CFG0_DEV_TYPE_MASK : Z := 0xF.
Definition CFG0_DEV_TYPE_RC : Z := 0x4.

Definition CFG5_LINK_DOWN_RST : Z := BIT 9.
Definition CFG5_APP_RDY_L23 : Z := BIT 2.
Definition CFG5_LTSSM_EN : Z := BIT 1.
Definition CFG5_APP_INIT_RST : Z := BIT 0.

Definition STS0_RDLH_LINK_UP : Z := BIT 16.
Definition STS0_XMLH_LINK_UP : Z := BIT 15.
Definition STS0_LINK_REQ_RST_NOT : Z := BIT 0.

Definition PCIE_INTR_MSI : Z := BIT 12.
Definition PCIE_INTR_LINK_AUTO_BW : Z := BIT 11.
Definition PCIE_INTR_HP : Z := BIT 10.
Definition PCIE_INTR_PME : Z := BIT 9.
Definition PCIE_INTR_AER : Z := BIT 8.
Definition PCIE_INTR_INTD_DEASSERT : Z := BIT 7.
Definition PCIE_INTR_INTD_ASSERT : Z := BIT 6.
Definition PCIE_INTR_INTC_DEASSERT : Z := BIT 5.
Definition PCIE_INTR_INTC_ASSERT : Z := BIT 4.
Definition PCIE_INTR_INTB_DEASSERT : Z := BIT 3.
Definition PCIE_INTR_INTB_ASSERT : Z := BIT 2.
Definition PCIE_INTR_INTA_DEASSERT : Z := BIT 1.
Definition PCIE_INTR_INTA_ASSERT : Z := BIT 0.

Definition LS1024A_PCIE_INTC_INTA : Z := 0.
Definition LS1024A_PCIE_INTC_INTB : Z := 2.
Definition LS1024A_PCIE_INTC_INTC : Z := 4.
Definition LS1024A_PCIE_INTC_INTD : Z := 6.
Definition LS1024A_PCIE_INTC_MSI : Z := 12.

Definition LS1024A_PCIE_INTC_NUM_INTS : Z := 13.

(** Error numbers (uapi/asm-generic/errno*.h) and [MAX_ERRNO] (linux/err.h). *)
Definition ENOMEM : Z := 12.
Definition ENODEV : Z := 19.
Definition EINVAL : Z := 22.
Definition ETIMEDOUT : Z := 110.
Definition EPROBE_DEFER : Z := 517.
Definition MAX_ERRNO : Z := 4095.

(** Pointers are integers: 0 is NULL, [-MAX_ERRNO .. -1] are the [ERR_PTR]
    encodings of error numbers, anything else is a valid handle. *)
Definition IS_ERR (p : Z) : bool := (- MAX_ERRNO <=? p) && (p <? 0).
Definition PTR_ERR (p : Z) : Z := p.

(** [irqreturn_t] (linux/irqreturn.h). *)
Inductive irqreturn_t : Type := IRQ_NONE | IRQ_HANDLED | IRQ_WAKE_THREAD.

(** ** Calls out of the driver *)

(** The three reset lines of [struct ls1024a_pcie]. *)
Inductive reset_control : Type := axi_reset | power_reset | regs_reset.

(** Every function of the kernel the driver calls, with the arguments that
    matter; each answers one integer (a return code, a value read, or a
    pointer in the encoding above). *)
Inductive call : Type :=
| regmap_read (reg : Z)
| regmap_write (reg val : Z)
| regmap_write_bits (reg mask val : Z)
| irq_find_mapping (hwirq : Z)
| generic_handle_irq (virq : Z)
| reset_control_assert (r : reset_control)
| reset_control_deassert (r : reset_control)
| devm_reset_control_get_exclusive (r : reset_control)
| devm_phy_get
| phy_init
| phy_set_mode
| phy_power_on
| phy_power_off
| phy_exit
| devm_clk_get
| clk_prepare_enable
| clk_disable_unprepare
| usleep_range
| devm_kzalloc
| of_property_read_u32
| syscon_regmap_lookup_by_compatible
| platform_get_resource_byname
| devm_pci_remap_cfg_resource (base : Z)
| platform_set_drvdata
| of_find_compatible_node
| of_get_child_by_name (node index : Z)
| of_node_put (node : Z)
| irq_domain_add_linear (node size : Z)
| of_irq_get (node : Z)
| devm_request_irq (irq : Z)
| dw_pcie_host_init.

Inductive loglevel : Type := KERN_ERR | KERN_DEBUG.

(** What an execution leaves behind: the calls made, each with its answer,
    and the messages printed (the format string, without its arguments), in
    program order. *)
Inductive event : Type :=
| Call (c : call) (r : Z)
| Log (l : loglevel) (fmt : string).

(** The rest of the kernel and the hardware: how a world of type [W]
    answers a call, and what the call does to it. *)
Class Kernel (W : Type) : Type := kernel_call : call -> W -> Z * W.

(** ** The driver monad: state, trace, and BUG *)

Section Monad.
Context {W : Type} {K : Kernel W}.

(** A computation runs in a world and yields a result ([None] after a
    kernel BUG), the world it leaves, and the trace it produced. *)
Definition M (A : Type) : Type := W -> option A * W * list event.

Definition ret {A : Type} (a : A) : M A := fun w => (Some a, w, []).

Definition bind {A B : Type} (m : M A) (f : A -> M B) : M B :=
  fun w =>
    match m w with
    | (Some a, w1, t1) =>
        match f a w1 with
        | (r, w2, t2) => (r, w2, t1 ++ t2)
        end
    | (None, w1, t1) => (None, w1, t1)
    end.

Definition do_call (c : call) : M Z :=
  fun w => match kernel_call c w with
           | (r, w') => (Some r, w', [Call c r])
           end.

Definition printk (l : loglevel) (msg : string) : M unit :=
  fun w => (Some tt, w, [Log l msg]).

Definition BUG {A : Type} : M A := fun w => (None, w, []).
End Monad.

Arguments M W A : clear implicits.

Declare Scope drv_scope.
Delimit Scope drv_scope with drv.
Notation "x <- m ;; k" := (bind m (fun x => k))
  (at level 100, m at next level, right associativity) : drv_scope.
Notation "m ;;; k" := (bind m (fun _ => k))
  (at level 100, right associativity) : drv_scope.
Local Open Scope drv_scope.

Definition dev_err {W : Type} (msg : string) : M W unit := printk KERN_ERR msg.
Definition dev_dbg {W : Type} (msg : string) : M W unit := printk KERN_DEBUG msg.
Definition pr_err {W : Type} (msg : string) : M W unit := printk KERN_ERR msg.

(** [BUG_ON(cond)]. *)
Definition BUG_ON {W : Type} (cond : bool) : M W unit :=
  if cond then BUG else ret tt.

(** Projections of a finished run. *)
Definition result {W A : Type} (x : option A * W * list event) : option A := fst (fst x).
Definition final {W A : Type} (x : option A * W * list event) : W := snd (fst x).
Definition trace {W A : Type} (x : option A * W * list event) : list event := snd x.

(** The calls of a trace, without answers and messages. *)
Definition calls (t : list event) : list call :=
  omap (fun e => match e with Call c _ => Some c | Log _ _ => None end) t.

(** ** The driver *)

Section Driver.
Context {W : Type} {K : Kernel W}.

(** [CONFIG_PCI_MSI] of the kernel configuration. *)
Variable CONFIG_PCI_MSI : bool.

(** [LINK_WAIT_MAX_RETRIES] of pcie-designware.h. *)
Variable LINK_WAIT_MAX_RETRIES : nat.

(** [regmap_read(pcie->app_regs, reg, &val)] with [unsigned int val]: the
    syscon is a memory-mapped regmap whose reads do not fail, so the return
    code the source ignores is not modelled and [val] is what was read. *)
Definition app_regs_read (reg : Z) : M W Z :=
  v <- do_call (regmap_read reg) ;; ret (u32 v).

Definition app_regs_write (reg val : Z) : M W unit :=
  do_call (regmap_write reg val) ;;; ret tt.

(** *** Resets (lines 81-118) *)

Definition ls1024a_reset_assert : M W Z :=
  let fail (res : Z) : M W Z :=
    dev_err "Failed to assert resets: %d\n" ;;; ret res in
  res <- do_call (reset_control_assert regs_reset) ;;
  if negb (res =? 0) then fail res else
  res <- do_call (reset_control_assert power_reset) ;;
  if negb (res =? 0) then fail res else
  res <- do_call (reset_control_assert axi_reset) ;;
  if negb (res =? 0) then fail res else
  ret 0.

Definition ls1024a_reset_deassert : M W Z :=
  let fail (res : Z) : M W Z :=
    dev_err "Failed to deassert resets: %d\n" ;;;
    ls1024a_reset_assert ;;;
    ret res in
  res <- do_call (reset_control_deassert axi_reset) ;;
  if negb (res =? 0) then fail res else
  res <- do_call (reset_control_deassert power_reset) ;;
  if negb (res =? 0) then fail res else
  res <- do_call (reset_control_deassert regs_reset) ;;
  if negb (res =? 0) then fail res else
  ret 0.

(** *** PHY (lines 120-174) *)

Definition ls1024a_pcie_disable_phy : M W unit :=
  do_call phy_power_off ;;;
  do_call phy_exit ;;;
  ret tt.

Definition ls1024a_pcie_enable_phy : M W Z :=
  r <- do_call phy_init ;;
  if negb (r =? 0) then ret r else
  r <- do_call phy_set_mode ;;
  if negb (r =? 0) then (do_call phy_exit ;;; ret r) else
  r <- do_call phy_power_on ;;
  if negb (r =? 0) then (do_call phy_exit ;;; ret r) else
  ret 0.

Definition ls1024a_pcie_setup_phy : M W Z :=
  phy <- do_call devm_phy_get ;;
  if IS_ERR phy && (PTR_ERR phy =? - EPROBE_DEFER) then ret (PTR_ERR phy) else
  let phy := if IS_ERR phy then 0 else phy in
  if phy =? 0 then (dev_err "No available PHY\n" ;;; ret (- EINVAL)) else
  r <- ls1024a_pcie_enable_phy ;;
  (if negb (r =? 0) then dev_err "Failed to initialize PHY(s) (%d)\n" else ret tt) ;;;
  ret r.

(** *** Link (lines 176-230) *)

Definition ls1024a_pcie_link_up (port : Z) : M W Z :=
  let reg := PCIEx_STSx port 0 in
  val <- app_regs_read reg ;;
  if Z.land val STS0_RDLH_LINK_UP =? STS0_RDLH_LINK_UP then ret 1 else
  dev_dbg "No link detected (PCIE%u_STS0: 0x%x).\n" ;;;
  ret 0.

(** Modelled from the spec: [dw_pcie_link_up] of pcie-designware.c, which is
    not part of the driver file.  The framework holds "a link-up predicate
    callback"; the driver registers [ls1024a_pcie_link_up] for it in
    [dw_pcie_ops], so the query is that callback. *)
Definition dw_pcie_link_up (port : Z) : M W Z := ls1024a_pcie_link_up port.

(** Modelled from the spec: [dw_pcie_wait_for_link] of pcie-designware.c,
    which is not part of the driver file: "a bounded poll with a fixed
    timeout, after which the operation simply returns failure".  It polls
    the link-up predicate at most [LINK_WAIT_MAX_RETRIES] times, sleeping
    between polls, and answers 0 or [-ETIMEDOUT]. *)
Fixpoint wait_for_link_poll (retries : nat) (port : Z) : M W bool :=
  match retries with
  | O => ret false
  | S n =>
      up <- dw_pcie_link_up port ;;
      if negb (up =? 0) then ret true else
      do_call usleep_range ;;;
      wait_for_link_poll n port
  end.

(** Modelled from the spec: the return value of [dw_pcie_wait_for_link],
    0 once the poll saw the link up and "failure" ([-ETIMEDOUT]) when the
    poll budget ran out. *)
Definition dw_pcie_wait_for_link (port : Z) : M W Z :=
  up <- wait_for_link_poll LINK_WAIT_MAX_RETRIES port ;;
  if up then ret 0 else ret (- ETIMEDOUT).

Definition ls1024a_pcie_establish_link (port : Z) : M W unit :=
  up <- dw_pcie_link_up port ;;
  (if up =? 0 then
     (* Disable LTSSM state machine to enable configuration *)
     let reg := PCIEx_CFGx port 5 in
     val <- app_regs_read reg ;;
     let val := Z.land val (not32 CFG5_LTSSM_EN) in
     app_regs_write reg val
   else ret tt) ;;;
  (* Set the device to root complex mode *)
  let reg := PCIEx_CFGx port 0 in
  val <- app_regs_read reg ;;
  let val := Z.land val (not32 CFG0_DEV_TYPE_MASK) in
  let val := Z.lor val CFG0_DEV_TYPE_RC in
  app_regs_write reg val ;;;
  up <- dw_pcie_link_up port ;;
  (if up =? 0 then
     (* Configuration done. Start LTSSM *)
     let reg := PCIEx_CFGx port 5 in
     val <- app_regs_read reg ;;
     let val := Z.lor val (Z.lor CFG5_LTSSM_EN CFG5_APP_INIT_RST) in
     app_regs_write reg val
   else ret tt) ;;;
  (* Wait until the link becomes active again *)
  r <- dw_pcie_wait_for_link port ;;
  if negb (r =? 0) then dev_err "Link not up after reconfiguration\n" else ret tt.

Definition ls1024a_pcie_start_link (port : Z) : M W Z :=
  ls1024a_pcie_establish_link port ;;;
  ret 0.

(** *** Interrupt multiplexer (lines 232-328) *)

(** [u32 irq = BIT(data->hwirq)]; [hwirq] is a slot of the 13-entry linear
    domain, so the shift is defined. *)
Definition ls1024a_pcie_mask_irq (port hwirq : Z) : M W unit :=
  let irq := u32 (BIT hwirq) in
  do_call (regmap_write_bits (PCIEx_INTR_EN port) irq 0) ;;;
  ret tt.

Definition ls1024a_pcie_unmask_irq (port hwirq : Z) : M W unit :=
  let irq := u32 (BIT hwirq) in
  do_call (regmap_write_bits (PCIEx_INTR_EN port) irq irq) ;;;
  ret tt.

(** The block the handler repeats for each line:
    [virq = irq_find_mapping(pcie->irq_domain, hwirq);
     if (virq) generic_handle_irq(virq);] *)
Definition handle_mapped (hwirq : Z) : M W unit :=
  virq <- do_call (irq_find_mapping hwirq) ;;
  if negb (virq =? 0) then do_call (generic_handle_irq virq) ;;; ret tt
  else ret tt.

Definition ls1024a_pcie_intc_handler (port : Z) : M W irqreturn_t :=
  let intx_mask :=
    Z.lor (Z.lor PCIE_INTR_INTA_ASSERT PCIE_INTR_INTB_ASSERT)
          (Z.lor PCIE_INTR_INTC_ASSERT PCIE_INTR_INTD_ASSERT) in
  let reg := PCIEx_INTR_STS port in
  status <- app_regs_read reg ;;
  (* Acknowledge interrupts *)
  app_regs_write reg status ;;;
  (if negb (Z.land status PCIE_INTR_MSI =? 0) then
     BUG_ON (negb CONFIG_PCI_MSI) ;;;
     handle_mapped LS1024A_PCIE_INTC_MSI
   else ret tt) ;;;
  (if negb (Z.land status intx_mask =? 0) then
     (if negb (Z.land status PCIE_INTR_INTA_ASSERT =? 0)
      then handle_mapped LS1024A_PCIE_INTC_INTA else ret tt) ;;;
     (if negb (Z.land status PCIE_INTR_INTB_ASSERT =? 0)
      then handle_mapped LS1024A_PCIE_INTC_INTB else ret tt) ;;;
     (if negb (Z.land status PCIE_INTR_INTC_ASSERT =? 0)
      then handle_mapped LS1024A_PCIE_INTC_INTC else ret tt) ;;;
     (if negb (Z.land status PCIE_INTR_INTD_ASSERT =? 0)
      then handle_mapped LS1024A_PCIE_INTC_INTD else ret tt)
   else ret tt) ;;;
  ret IRQ_HANDLED.

(** *** Probe (lines 330-531) *)

Definition find_intc_node (index : Z) : M W Z :=
  node <- do_call of_find_compatible_node ;;
  if node =? 0 then ret 0 else
  intc_node <- do_call (of_get_child_by_name node index) ;;
  do_call (of_node_put node) ;;;
  (if intc_node =? 0 then pr_err "PCIe interrupt node %s not found\n" else ret tt) ;;;
  ret intc_node.

Definition ls1024a_pcie_init_irq (port : Z) : M W Z :=
  intc_node <- find_intc_node port ;;
  if intc_node =? 0 then ret (- ENODEV) else
  domain <- do_call (irq_domain_add_linear intc_node LS1024A_PCIE_INTC_NUM_INTS) ;;
  if domain =? 0 then
    (do_call (of_node_put intc_node) ;;;
     dev_err "Failed to get PCIe INTC IRQ domain\n" ;;;
     ret (- ENODEV))
  else
  irq <- do_call (of_irq_get intc_node) ;;
  if irq <? 0 then
    (do_call (of_node_put intc_node) ;;;
     dev_err "failed to get irq for port\n" ;;;
     ret irq)
  else
  do_call (of_node_put intc_node) ;;;
  r <- do_call (devm_request_irq irq) ;;
  if negb (r =? 0) then (dev_err "failed to request irq %d\n" ;;; ret r) else
  ret 0.

Definition ls1024a_add_pcie_port (port : Z) : M W Z :=
  r <- ls1024a_pcie_init_irq port ;;
  if r <? 0 then ret r else
  r <- do_call dw_pcie_host_init ;;
  if negb (r =? 0) then (dev_err "failed to initialize host: %d\n" ;;; ret r) else
  ret 0.

Definition ls1024a_reset_setup : M W Z :=
  p <- do_call (devm_reset_control_get_exclusive axi_reset) ;;
  if IS_ERR p then (dev_err "Failed to get AXI reset: %d\n" ;;; ret (PTR_ERR p)) else
  p <- do_call (devm_reset_control_get_exclusive power_reset) ;;
  if IS_ERR p then (dev_err "Failed to get power reset: %d\n" ;;; ret (PTR_ERR p)) else
  p <- do_call (devm_reset_control_get_exclusive regs_reset) ;;
  if IS_ERR p then (dev_err "Failed to get regs reset: %d\n" ;;; ret (PTR_ERR p)) else
  ls1024a_reset_assert.

(** [ret = of_property_read_u32(dev->of_node, "fsl,port-index", &port)]
    yields two values through one answer: a negative answer is the error
    code and leaves [port] as it was; any other answer is the value of the
    property, stored in the [uint32_t port], with return code 0. *)
Definition read_port_index (port : Z) : M W (Z * Z) :=
  a <- do_call of_property_read_u32 ;;
  if a <? 0 then ret (a, port) else ret (0, u32 a).

Definition ls1024a_pcie_probe : M W Z :=
  let fail_reset (r : Z) : M W Z := ret r in
  let fail_clk (r : Z) : M W Z :=
    do_call clk_disable_unprepare ;;; fail_reset r in
  let disable_phy (r : Z) : M W Z :=
    ls1024a_pcie_disable_phy ;;; fail_clk r in
  let reset (r : Z) : M W Z :=
    ls1024a_reset_assert ;;; disable_phy r in
  pcie <- do_call devm_kzalloc ;;
  if pcie =? 0 then ret (- ENOMEM) else
  pci <- do_call devm_kzalloc ;;
  if pci =? 0 then ret (- ENOMEM) else
  rp <- read_port_index 0 ;;
  let r := fst rp in
  let port := snd rp in
  if negb (r =? 0) || (1 <? port) then
    (dev_err "Missing or invalid fsl,port-index property.\n" ;;; ret (- EINVAL))
  else
  dev_dbg "port_idx: %u\n" ;;;
  app_regs <- do_call syscon_regmap_lookup_by_compatible ;;
  if IS_ERR app_regs then
    (dev_err "Failed to get PCI ctrl syscon: %d\n" ;;; ret (PTR_ERR app_regs))
  else
  clk <- do_call devm_clk_get ;;
  if IS_ERR clk then ret (PTR_ERR clk) else
  r <- ls1024a_reset_setup ;;
  if negb (r =? 0) then ret r else
  r <- do_call clk_prepare_enable ;;
  if negb (r =? 0) then fail_reset r else
  r <- ls1024a_pcie_setup_phy ;;
  if negb (r =? 0) then fail_clk r else
  r <- ls1024a_reset_deassert ;;
  if negb (r =? 0) then disable_phy r else
  (* Get the dw-pcie unit DBI registers base. *)
  base <- do_call platform_get_resource_byname ;;
  dbi_base <- do_call (devm_pci_remap_cfg_resource base) ;;
  if IS_ERR dbi_base then
    (dev_err "couldn't remap regs base %p\n" ;;; reset (PTR_ERR dbi_base))
  else
  do_call platform_set_drvdata ;;;
  r <- ls1024a_add_pcie_port port ;;
  if negb (r =? 0) then reset r else
  ret 0.
End Driver.

(** ** A concrete machine *)

(** One port's worth of hardware and kernel state: the syscon register
    file, which reset lines are held, the interrupt domain's mappings, the
    port index of the device tree, and a fault-injection script. *)
Record board : Type := {
  app_regs : gmap Z Z;
  held : reset_control -> bool;
  irq_domain : gmap Z Z;
  dt_port_index : Z;
  script : list Z
}.

Definition reg_val (b : board) (reg : Z) : Z := default 0 (app_regs b !! reg).

Definition set_reg (reg val : Z) (b : board) : board :=
  {| app_regs := <[reg := val]> (app_regs b); held := held b;
     irq_domain := irq_domain b; dt_port_index := dt_port_index b;
     script := script b |}.

Definition reset_control_eqb (a b : reset_control) : bool :=
  match a, b with
  | axi_reset, axi_reset | power_reset, power_reset | regs_reset, regs_reset => true
  | _, _ => false
  end.

Definition set_held (r : reset_control) (v : bool) (b : board) : board :=
  {| app_regs := app_regs b;
     held := fun r' => if reset_control_eqb r r' then v else held b r';
     irq_domain := irq_domain b; dt_port_index := dt_port_index b;
     script := script b |}.

(** The next return code of the script; an exhausted script means success. *)
Definition next_code (b : board) : Z * board :=
  match script b with
  | [] => (0, b)
  | c :: rest =>
      (c, {| app_regs := app_regs b; held := held b; irq_domain := irq_domain b;
             dt_port_index := dt_port_index b; script := rest |})
  end.

(** Modelled from the spec: [regmap_write_bits] of the kernel's regmap core,
    "an atomic set/clear-bits primitive": under the regmap lock the register
    becomes [(orig & ~mask) | (val & mask)]. *)
Definition update_bits (orig mask val : Z) : Z :=
  Z.lor (Z.land orig (not32 mask)) (Z.land val mask).

(** Modelled from the spec: the interrupt status registers are
    "write-1-to-clear"; every other register of the bank keeps what is
    written to it. *)
Definition is_intr_sts (reg : Z) : bool :=
  (reg =? PCIEx_INTR_STS 0) || (reg =? PCIEx_INTR_STS 1).

Definition board_write (reg val : Z) (b : board) : board :=
  if is_intr_sts reg
  then set_reg reg (Z.land (reg_val b reg) (not32 val)) b
  else set_reg reg (u32 val) b.

(** How the machine answers each call.  Calls that return an error code
    take it from the script, and change the machine only when they succeed
    (code 0); lookups answer from the machine's tables; allocation and
    device-tree lookups succeed with handle 1. *)
Definition board_call (c : call) (b : board) : Z * board :=
  match c with
  | regmap_read reg => (reg_val b reg, b)
  | regmap_write reg val => (0, board_write reg val b)
  | regmap_write_bits reg mask val =>
      (0, set_reg reg (update_bits (reg_val b reg) mask val) b)
  | irq_find_mapping hwirq => (default 0 (irq_domain b !! hwirq), b)
  | generic_handle_irq _ => (0, b)
  | reset_control_assert r =>
      match next_code b with
      | (c, b') => (c, if c =? 0 then set_held r true b' else b')
      end
  | reset_control_deassert r =>
      match next_code b with
      | (c, b') => (c, if c =? 0 then set_held r false b' else b')
      end
  | phy_init | phy_set_mode | phy_power_on | phy_power_off | phy_exit
  | clk_prepare_enable | devm_request_irq _ | dw_pcie_host_init => next_code b
  | of_property_read_u32 => (dt_port_index b, b)
  | clk_disable_unprepare | usleep_range | platform_set_drvdata
  | of_node_put _ => (0, b)
  | devm_reset_control_get_exclusive _ | devm_phy_get | devm_clk_get
  | devm_kzalloc | syscon_regmap_lookup_by_compatible
  | platform_get_resource_byname | devm_pci_remap_cfg_resource _
  | of_find_compatible_node | of_get_child_by_name _ _
  | irq_domain_add_linear _ _ | of_irq_get _ => (1, b)
  end.

#[export] Instance board_kernel : Kernel board := board_call.

(** All three reset lines held: the state [ls1024a_reset_setup] leaves. *)
Definition full_assert (b : board) : Prop := forall r, held b r = true.


(** The calls [handle_mapped] makes once the lookup answered [virq]. *)
Definition invoked (virq : Z) : list call :=
  if virq =? 0 then [] else [generic_handle_irq virq].

(** The register stores of a trace: plain writes and masked updates. *)
Definition is_store (c : call) : bool :=
  match c with
  | regmap_write _ _ | regmap_write_bits _ _ _ => true
  | _ => false
  end.

Definition stores (t : list event) : list call := List.filter is_store (calls t).

(** The outcome of running [m] in world [w] satisfies [Q]. *)
Definition wp {W A : Type} (m : M W A) (w : W)
    (Q : option A -> W -> list event -> Prop) : Prop :=
  Q (result (m w)) (final (m w)) (trace (m w)).

(** The PHY framework calls, and the events of a trace that are such
    calls. *)
Definition is_phy_call (c : call) : bool :=
  match c with
  | phy_init | phy_set_mode | phy_power_on | phy_power_off | phy_exit => true
  | _ => false
  end.




(** The order in which the reset lines are released and held again. *)
Definition deassert_order : list call :=
  [reset_control_deassert axi_reset; reset_control_deassert power_reset;
   reset_control_deassert regs_reset].

Definition assert_order : list call :=
  [reset_control_assert regs_reset; reset_control_assert power_reset;
   reset_control_assert axi_reset].

(** The events of a trace that are calls selected by [p], in program
    order. *)
Definition keep (p : call -> bool) (t : list event) : list event :=
  List.filter (fun ev => match ev with Call c _ => p c | Log _ _ => false end) t.

(** Every call of the trace is one that [f] allows. *)
Definition within (f : call -> bool) (t : list event) : Prop :=
  Forall (fun ev => match ev with Call c _ => f c = true | Log _ _ => True end) t.

Definition is_reset_assert (c : call) : bool :=
  match c with reset_control_assert _ => true | _ => false end.

Definition is_reset_deassert (c : call) : bool :=
  match c with reset_control_deassert _ => true | _ => false end.

Definition is_reset_op (c : call) : bool := is_reset_assert c || is_reset_deassert c.

Definition is_reset_get (c : call) : bool :=
  match c with devm_reset_control_get_exclusive _ => true | _ => false end.

(** The calls of [ls1024a_add_pcie_port]. *)
Definition is_port_call (c : call) : bool :=
  match c with
  | of_find_compatible_node | of_get_child_by_name _ _ | of_node_put _
  | irq_domain_add_linear _ _ | of_irq_get _ | devm_request_irq _
  | dw_pcie_host_init => true
  | _ => false
  end.

(** How a run of [ls1024a_reset_assert] can end: all three lines held and
    0 returned, or the [k]-th call failed with the code returned, after
    [k] successful calls and followed by one message. *)
Definition assert_outcome (res : Z) (t : list event) : Prop :=
  (res = 0 /\ t = map (fun c => Call c 0) assert_order)
  \/ (res <> 0 /\ exists k c,
        nth_error assert_order k = Some c
        /\ t = map (fun c => Call c 0) (firstn k assert_order)
               ++ [Call c res; Log KERN_ERR "Failed to assert resets: %d\n"]).

(** How a run of [ls1024a_reset_deassert] can end: all three lines released
    and 0 returned, or the [k]-th release failed with the code returned,
    followed by one message and a run of [ls1024a_reset_assert]. *)
Definition deassert_outcome (res : Z) (t : list event) : Prop :=
  (res = 0 /\ t = map (fun c => Call c 0) deassert_order)
  \/ (res <> 0 /\ exists k c res' t',
        nth_error deassert_order k = Some c
        /\ assert_outcome res' t'
        /\ t = map (fun c => Call c 0) (firstn k deassert_order)
               ++ [Call c res; Log KERN_ERR "Failed to deassert resets: %d\n"]
               ++ t').

(** A world that answers the calls made, whatever they are, with the
    numbers of a list in turn, and with 0 once the list is used up. *)
#[export] Instance replay : Kernel (list Z) :=
  fun _ s => match s with [] => (0, []) | a :: s' => (a, s') end.

(** The interrupt-domain lookups of a trace, as (slot, answer) pairs, and
    the virtual IRQs it invoked, both in program order. *)
Definition lookups (t : list event) : list (Z * Z) :=
  flat_map (fun ev => match ev with
                      | Call (irq_find_mapping hwirq) virq => [(hwirq, virq)]
                      | _ => []
                      end) t.

Definition handled (t : list event) : list Z :=
  flat_map (fun ev => match ev with
                      | Call (generic_handle_irq virq) _ => [virq]
                      | _ => []
                      end) t.

(** The slots the handler can dispatch, in the order it tests them. *)
Definition dispatch_order : list Z :=
  [LS1024A_PCIE_INTC_MSI; LS1024A_PCIE_INTC_INTA; LS1024A_PCIE_INTC_INTB;
   LS1024A_PCIE_INTC_INTC; LS1024A_PCIE_INTC_INTD].

Definition is_reset_setup_call (c : call) : bool :=
  is_reset_get c || is_reset_assert c.

Definition is_port_index_read (c : call) : bool :=
  match c with of_property_read_u32 => true | _ => false end.

(** The calls that enable and disable the clock and bring the PHY up and
    down. *)
Definition is_lifecycle_call (c : call) : bool :=
  match c with
  | clk_prepare_enable | clk_disable_unprepare => true
  | _ => is_phy_call c
  end.

(** How the clock and PHY calls of a run of probe can go, with the code
    probe returns.  Either all four steps answered 0, nothing is undone and
    probe returns 0; or probe returns a non-zero code and exactly what had
    succeeded is undone, last first: [phy_power_off] after a successful
    [phy_power_on], [phy_exit] after a successful [phy_init],
    [clk_disable_unprepare] after a successful [clk_prepare_enable].  When
    one of the four steps failed, its code is the one returned. *)
Inductive lifecycle_outcome : Z -> list event -> Prop :=
| lifecycle_up :
    lifecycle_outcome 0
      [Call clk_prepare_enable 0; Call phy_init 0; Call phy_set_mode 0;
       Call phy_power_on 0]
| lifecycle_untouched (e : Z) :
    e <> 0 -> lifecycle_outcome e []
| lifecycle_clk_failed (e : Z) :
    e <> 0 -> lifecycle_outcome e [Call clk_prepare_enable e]
| lifecycle_no_phy (e x : Z) :
    e <> 0 ->
    lifecycle_outcome e [Call clk_prepare_enable 0; Call clk_disable_unprepare x]
| lifecycle_init_failed (e x : Z) :
    e <> 0 ->
    lifecycle_outcome e
      [Call clk_prepare_enable 0; Call phy_init e; Call clk_disable_unprepare x]
| lifecycle_set_mode_failed (e x y : Z) :
    e <> 0 ->
    lifecycle_outcome e
      [Call clk_prepare_enable 0; Call phy_init 0; Call phy_set_mode e;
       Call phy_exit x; Call clk_disable_unprepare y]
| lifecycle_power_on_failed (e x y : Z) :
    e <> 0 ->
    lifecycle_outcome e
      [Call clk_prepare_enable 0; Call phy_init 0; Call phy_set_mode 0;
       Call phy_power_on e; Call phy_exit x; Call clk_disable_unprepare y]
| lifecycle_torn_down (e x y z : Z) :
    e <> 0 ->
    lifecycle_outcome e
      [Call clk_prepare_enable 0; Call phy_init 0; Call phy_set_mode 0;
       Call phy_power_on 0; Call phy_power_off x; Call phy_exit y;
       Call clk_disable_unprepare z].

(** Selections of calls used to state in which order probe does things. *)
Definition is_clk_enable (c : call) : bool :=
  match c with clk_prepare_enable => true | _ => false end.

Definition is_phy_power_on (c : call) : bool :=
  match c with phy_power_on => true | _ => false end.

Definition is_host_init (c : call) : bool :=
  match c with dw_pcie_host_init => true | _ => false end.

Definition is_request_irq (c : call) : bool :=
  match c with devm_request_irq _ => true | _ => false end.

Definition is_reset_or_clock (c : call) : bool := is_reset_op c || is_clk_enable c.

Definition is_release_or_power (c : call) : bool :=
  is_reset_deassert c || is_phy_power_on c.

Definition is_reset_or_host (c : call) : bool :=
  is_reset_op c || is_request_irq c || is_host_init c.

(** The device-tree node references a trace obtained (the non-NULL answers
    of the two lookups) and the ones it put back, in program order. *)
Definition node_gets (t : list event) : list Z :=
  flat_map (fun ev => match ev with
                      | Call of_find_compatible_node n
                      | Call (of_get_child_by_name _ _) n =>
                          if n =? 0 then [] else [n]
                      | _ => []
                      end) t.

Definition node_puts (t : list event) : list Z :=
  flat_map (fun ev => match ev with
                      | Call (of_node_put n) _ => [n]
                      | _ => []
                      end) t.

(** Machines used to run the theorems on concrete inputs. *)

(** Port 0, all resets held, INTA and INTC pending, slots 0 and 4 mapped. *)
Definition inta_intc_board : board :=
  {| app_regs := {[ PCIEx_INTR_STS 0 := 0x11 ]};
     held := fun _ => true;
     irq_domain := {[ 0 := 40; 4 := 44 ]};
     dt_port_index := 0;
     script := [] |}.

(** Port 0 with nothing pending on a shared line. *)
Definition quiet_board : board :=
  {| app_regs := {[ PCIEx_INTR_STS 0 := 0 ]};
     held := fun _ => true;
     irq_domain := {[ 0 := 40; 4 := 44 ]};
     dt_port_index := 0;
     script := [] |}.

(** Port 0 with the MSI bit pending. *)
Definition msi_board : board :=
  {| app_regs := {[ PCIEx_INTR_STS 0 := 0x1000 ]};
     held := fun _ => true;
     irq_domain := {[ 12 := 52 ]};
     dt_port_index := 0;
     script := [] |}.

(** Port 1 with its link trained: bit 16 of PCIE1_STS0 reads 1. *)
Definition linked_board : board :=
  {| app_regs := {[ PCIEx_STSx 1 0 := 0x18001; PCIEx_CFGx 1 0 := 0x120;
                    PCIEx_CFGx 1 5 := 0x3 ]};
     held := fun _ => false;
     irq_domain := ∅;
     dt_port_index := 1;
     script := [] |}.

(** A machine whose reset controller answers the given codes in turn. *)
Definition faulty_board (codes : list Z) : board :=
  {| app_regs := ∅;
     held := fun _ => true;
     irq_domain := ∅;
     dt_port_index := 0;
     script := codes |}.

(** ** Basic facts *)

Lemma testbit_u32 (x i : Z) :
  0 <= i -> Z.testbit (u32 x) i = (i <? 32) && Z.testbit x i.
Proof.
  intros Hi. unfold u32.
  destruct (Z.ltb_spec i 32).
  - rewrite Z.mod_pow2_bits_low by lia. reflexivity.
  - rewrite Z.mod_pow2_bits_high by lia. reflexivity.
Qed.

Lemma land_BIT (x n : Z) :
  0 <= n -> Z.land x (BIT n) = if Z.testbit x n then BIT n else 0.
Proof.
  intros Hn. unfold BIT. rewrite Z.shiftl_1_l.
  apply Z.bits_inj'. intros i Hi. rewrite Z.land_spec.
  destruct (Z.eq_dec i n) as [->|Hne].
  - rewrite Z.pow2_bits_true by lia.
    destruct (Z.testbit x n).
    + rewrite Z.pow2_bits_true by lia. reflexivity.
    + rewrite Z.bits_0. reflexivity.
  - rewrite Z.pow2_bits_false by lia. rewrite andb_false_r.
    destruct (Z.testbit x n).
    + rewrite Z.pow2_bits_false by lia. reflexivity.
    + rewrite Z.bits_0. reflexivity.
Qed.

Lemma BIT_pos (n : Z) : 0 <= n -> 0 < BIT n.
Proof.
  intros Hn. unfold BIT. rewrite Z.shiftl_1_l. apply Z.pow_pos_nonneg; lia.
Qed.

Lemma land_BIT_eqb (x n : Z) :
  0 <= n -> (Z.land x (BIT n) =? BIT n) = Z.testbit x n.
Proof.
  intros Hn. rewrite land_BIT by assumption.
  pose proof (BIT_pos n Hn).
  destruct (Z.testbit x n).
  - apply Z.eqb_refl.
  - apply Z.eqb_neq. lia.
Qed.

Lemma land_BIT_nonzero (x n : Z) :
  0 <= n -> negb (Z.land x (BIT n) =? 0) = Z.testbit x n.
Proof.
  intros Hn. rewrite land_BIT by assumption.
  pose proof (BIT_pos n Hn).
  destruct (Z.testbit x n).
  - apply negb_true_iff, Z.eqb_neq. lia.
  - reflexivity.
Qed.

(** ** Running the monad symbolically *)

Arguments u32 : simpl never.
Arguments not32 : simpl never.
Arguments BIT : simpl never.
Arguments PCIEx_CFGx : simpl never.
Arguments PCIEx_STSx : simpl never.
Arguments PCIEx_INTR_STS : simpl never.
Arguments PCIEx_INTR_EN : simpl never.
Arguments Z.land !a !b.
Arguments Z.lor !a !b.
Arguments Z.testbit !a !n.

(** Name the answer of the next kernel call and continue. *)
Ltac answer :=
  match goal with
  | |- context [kernel_call ?c ?w] =>
      let a := fresh "a" in
      let w' := fresh "w" in
      let E := fresh "Ecall" in
      destruct (kernel_call c w) as [a w'] eqn:E; cbn
  end.

Ltac run_monad :=
  unfold bind, do_call, ret, printk, dev_err, dev_dbg, pr_err, BUG_ON, BUG,
    result, final, trace; cbn.

(** ** Link status *)

(** C3: for every content of the port's link status register 0,
    [ls1024a_pcie_link_up] answers 1 exactly when bit 16 (RDLH_LINK_UP) of
    the content is 1 and 0 otherwise; its only call is the read of that
    register, so it writes nothing and its answer is a function of the
    register content alone. *)
Theorem link_up_iff_rdlh_bit {W : Type} {K : Kernel W} (port : Z) (w : W) :
  let a := kernel_call (regmap_read (PCIEx_STSx port 0)) w in
  let r := ls1024a_pcie_link_up port w in
  result r = Some (if Z.testbit (fst a) 16 then 1 else 0)
  /\ (result r = Some 1 <-> Z.testbit (fst a) 16 = true)
  /\ calls (trace r) = [regmap_read (PCIEx_STSx port 0)]
  /\ final r = snd a.
Proof.
  cbv zeta. unfold ls1024a_pcie_link_up, app_regs_read. run_monad.
  answer. unfold STS0_RDLH_LINK_UP.
  rewrite land_BIT_eqb, testbit_u32 by lia. cbn.
  destruct (Z.testbit a 16); cbn; repeat split. all: congruence.
Qed.

(** ** Interrupt dispatch *)

(** Decide the next conditional of the goal. *)
Ltac branch :=
  match goal with
  | |- context [if ?c then _ else _] =>
      let E := fresh "Eif" in destruct c eqn:E; cbn
  end.

(** Evaluate a conditional whose test is a closed term. *)
Ltac decide_cond :=
  match goal with
  | |- context [if ?c then _ else _] =>
      let v := eval vm_compute in c in
      lazymatch v with
      | true => change c with true
      | false => change c with false
      end; cbn
  end.

Ltac intr_bits :=
  unfold PCIE_INTR_MSI, PCIE_INTR_INTA_ASSERT, PCIE_INTR_INTB_ASSERT,
    PCIE_INTR_INTC_ASSERT, PCIE_INTR_INTD_ASSERT, LS1024A_PCIE_INTC_MSI,
    LS1024A_PCIE_INTC_INTA, LS1024A_PCIE_INTC_INTB, LS1024A_PCIE_INTC_INTC,
    LS1024A_PCIE_INTC_INTD in *.

(** C1 (as amended): when the status register reads zero, the handler
    looks up and invokes no virtual IRQ -- its only calls are the status
    read and an acknowledge write of 0 -- and it returns IRQ_HANDLED. *)
Theorem intc_handler_zero_status {W : Type} {K : Kernel W}
    (cfg : bool) (port : Z) (w : W) :
  u32 (fst (kernel_call (regmap_read (PCIEx_INTR_STS port)) w)) = 0 ->
  let r := ls1024a_pcie_intc_handler cfg port w in
  result r = Some IRQ_HANDLED
  /\ calls (trace r) =
       [regmap_read (PCIEx_INTR_STS port); regmap_write (PCIEx_INTR_STS port) 0].
Proof.
  intros H. cbv zeta.
  unfold ls1024a_pcie_intc_handler, handle_mapped, app_regs_read, app_regs_write.
  run_monad. answer. cbn in H. rewrite H. answer.
  split; reflexivity.
Qed.

Lemma intc_handler_zero_status_witness :
  u32 (fst (kernel_call (regmap_read (PCIEx_INTR_STS 0)) quiet_board)) = 0
  /\ result (ls1024a_pcie_intc_handler true 0 quiet_board) = Some IRQ_HANDLED
  /\ calls (trace (ls1024a_pcie_intc_handler true 0 quiet_board)) =
       [regmap_read (PCIEx_INTR_STS 0); regmap_write (PCIEx_INTR_STS 0) 0].
Proof.
  split.
  - vm_compute. reflexivity.
  - apply (intc_handler_zero_status true 0 quiet_board). vm_compute. reflexivity.
Defined.

(** C1 (as stated) fails: with the status register reading zero the handler
    still returns IRQ_HANDLED, not IRQ_NONE. *)
Lemma intc_handler_zero_status_not_none :
  reg_val quiet_board (PCIEx_INTR_STS 0) = 0
  /\ result (ls1024a_pcie_intc_handler true 0 quiet_board) = Some IRQ_HANDLED
  /\ result (ls1024a_pcie_intc_handler true 0 quiet_board) <> Some IRQ_NONE.
Proof.
  split; [|split].
  - vm_compute. reflexivity.
  - vm_compute. reflexivity.
  - vm_compute. discriminate.
Qed.

(** C2: on a status snapshot with exactly INTA_ASSERT and INTC_ASSERT set,
    the handler reads the status register, writes the snapshot back once,
    and only then looks up slot 0, invokes what it found there if anything,
    looks up slot 4 and invokes what it found there if anything; it makes no
    other call, so slots 2, 6 and 12 are neither looked up nor invoked. *)
Theorem intc_handler_inta_intc {W : Type} {K : Kernel W}
    (cfg : bool) (port : Z) (w : W) :
  u32 (fst (kernel_call (regmap_read (PCIEx_INTR_STS port)) w))
    = Z.lor PCIE_INTR_INTA_ASSERT PCIE_INTR_INTC_ASSERT ->
  let r := ls1024a_pcie_intc_handler cfg port w in
  let snapshot := Z.lor PCIE_INTR_INTA_ASSERT PCIE_INTR_INTC_ASSERT in
  exists v0 v4 : Z,
    In (Call (irq_find_mapping LS1024A_PCIE_INTC_INTA) v0) (trace r)
    /\ In (Call (irq_find_mapping LS1024A_PCIE_INTC_INTC) v4) (trace r)
    /\ calls (trace r) =
         [regmap_read (PCIEx_INTR_STS port);
          regmap_write (PCIEx_INTR_STS port) snapshot]
         ++ [irq_find_mapping LS1024A_PCIE_INTC_INTA] ++ invoked v0
         ++ [irq_find_mapping LS1024A_PCIE_INTC_INTC] ++ invoked v4
    /\ result r = Some IRQ_HANDLED.
Proof.
  intros H. cbv zeta.
  unfold ls1024a_pcie_intc_handler, handle_mapped, app_regs_read, app_regs_write.
  run_monad. answer. cbn in H. rewrite H. clear H.
  answer. repeat decide_cond. intr_bits.
  destruct (kernel_call (irq_find_mapping 0) w1) as [v0 w2] eqn:E0. cbn.
  destruct (v0 =? 0) eqn:Ev0; cbn; [|answer];
    match goal with
    | |- context [kernel_call (irq_find_mapping 4) ?w'] =>
        destruct (kernel_call (irq_find_mapping 4) w') as [v4 w4] eqn:E4
    end; cbn;
    (destruct (v4 =? 0) eqn:Ev4; cbn; [|answer]);
    exists v0, v4; unfold invoked; rewrite Ev0, Ev4; cbn;
    repeat split; auto 10.
Qed.

Lemma intc_handler_inta_intc_witness :
  u32 (fst (kernel_call (regmap_read (PCIEx_INTR_STS 0)) inta_intc_board))
    = Z.lor PCIE_INTR_INTA_ASSERT PCIE_INTR_INTC_ASSERT
  /\ exists v0 v4 : Z,
       In (Call (irq_find_mapping LS1024A_PCIE_INTC_INTA) v0)
          (trace (ls1024a_pcie_intc_handler true 0 inta_intc_board))
       /\ In (Call (irq_find_mapping LS1024A_PCIE_INTC_INTC) v4)
          (trace (ls1024a_pcie_intc_handler true 0 inta_intc_board))
       /\ calls (trace (ls1024a_pcie_intc_handler true 0 inta_intc_board)) =
            [regmap_read (PCIEx_INTR_STS 0);
             regmap_write (PCIEx_INTR_STS 0)
               (Z.lor PCIE_INTR_INTA_ASSERT PCIE_INTR_INTC_ASSERT)]
            ++ [irq_find_mapping LS1024A_PCIE_INTC_INTA] ++ invoked v0
            ++ [irq_find_mapping LS1024A_PCIE_INTC_INTC] ++ invoked v4
       /\ result (ls1024a_pcie_intc_handler true 0 inta_intc_board)
          = Some IRQ_HANDLED.
Proof.
  split.
  - vm_compute. reflexivity.
  - apply (intc_handler_inta_intc true 0 inta_intc_board). vm_compute. reflexivity.
Defined.

(** A lookup and invocation always comes back: it cannot hit a BUG. *)
Lemma handle_mapped_returns {W : Type} {K : Kernel W} (hwirq : Z) (w : W) :
  exists w' t, handle_mapped hwirq w = (Some tt, w', t).
Proof.
  unfold handle_mapped. run_monad. answer.
  branch; [answer|]; eauto.
Qed.

Ltac mapped :=
  match goal with
  | |- context [handle_mapped ?h ?w] =>
      let w' := fresh "w" in
      let t := fresh "t" in
      let E := fresh "Emap" in
      destruct (handle_mapped_returns h w) as (w' & t & E); rewrite E; cbn
  end.

(** C10: the handler stops on the kernel assertion exactly when the MSI bit
    (bit 12) of the status snapshot is set and CONFIG_PCI_MSI is disabled;
    it does so right after the acknowledge write, without looking up or
    invoking anything.  With CONFIG_PCI_MSI enabled the assertion is never
    hit: every run returns IRQ_HANDLED. *)
Theorem intc_handler_bug_iff {W : Type} {K : Kernel W}
    (cfg : bool) (port : Z) (w : W) :
  let status := u32 (fst (kernel_call (regmap_read (PCIEx_INTR_STS port)) w)) in
  let r := ls1024a_pcie_intc_handler cfg port w in
  (result r = None <-> Z.testbit status 12 = true /\ cfg = false)
  /\ (result r = None ->
      calls (trace r) =
        [regmap_read (PCIEx_INTR_STS port);
         regmap_write (PCIEx_INTR_STS port) status])
  /\ (cfg = true -> result r = Some IRQ_HANDLED).
Proof.
  cbv zeta.
  unfold ls1024a_pcie_intc_handler, app_regs_read, app_regs_write.
  run_monad. answer. answer.
  unfold PCIE_INTR_MSI. rewrite land_BIT_nonzero by lia.
  destruct (Z.testbit (u32 a) 12) eqn:Emsi; cbn.
  - destruct cfg; cbn.
    + repeat first [mapped | branch];
        (split; [split; [discriminate | intros [_ ?]; discriminate]
                | split; [discriminate | reflexivity]]).
    + split; [split; [auto | reflexivity] | split; [reflexivity | discriminate]].
  - repeat first [mapped | branch];
      (split; [split; [discriminate | intros [? _]; discriminate]
              | split; [discriminate | reflexivity]]).
Qed.

Lemma intc_handler_bug_witness :
  Z.testbit (u32 (fst (kernel_call (regmap_read (PCIEx_INTR_STS 0)) msi_board))) 12
    = true
  /\ result (ls1024a_pcie_intc_handler false 0 msi_board) = None
  /\ result (ls1024a_pcie_intc_handler true 0 msi_board) = Some IRQ_HANDLED.
Proof.
  split; [|split].
  - vm_compute. reflexivity.
  - destruct (intc_handler_bug_iff false 0 msi_board) as [[_ Hbug] _].
    apply Hbug. split; vm_compute; reflexivity.
  - destruct (intc_handler_bug_iff true 0 msi_board) as [_ [_ Hok]].
    apply Hok. reflexivity.
Defined.

(** ** Link start *)

Lemma calls_app (t1 t2 : list event) : calls (t1 ++ t2) = calls t1 ++ calls t2.
Proof. unfold calls. apply omap_app. Qed.

Lemma stores_app (t1 t2 : list event) : stores (t1 ++ t2) = stores t1 ++ stores t2.
Proof. unfold stores. rewrite calls_app. apply List.filter_app. Qed.

(** [ls1024a_pcie_link_up] in one step. *)
Lemma link_up_run {W : Type} {K : Kernel W} (port : Z) (w : W) :
  ls1024a_pcie_link_up port w =
  (Some (if Z.testbit (fst (kernel_call (regmap_read (PCIEx_STSx port 0)) w)) 16
         then 1 else 0),
   snd (kernel_call (regmap_read (PCIEx_STSx port 0)) w),
   Call (regmap_read (PCIEx_STSx port 0))
        (fst (kernel_call (regmap_read (PCIEx_STSx port 0)) w))
   :: if Z.testbit (fst (kernel_call (regmap_read (PCIEx_STSx port 0)) w)) 16
      then [] else [Log KERN_DEBUG "No link detected (PCIE%u_STS0: 0x%x).\n"]).
Proof.
  unfold ls1024a_pcie_link_up, app_regs_read. run_monad. answer.
  unfold STS0_RDLH_LINK_UP. rewrite land_BIT_eqb, testbit_u32 by lia. cbn.
  destruct (Z.testbit a 16); reflexivity.
Qed.

(** The poll always comes back, stores nothing, and reports no link when
    every status read it made showed the link down. *)
Lemma wait_for_link_poll_spec {W : Type} {K : Kernel W}
    (n : nat) (port : Z) (w : W) :
  exists up w' t,
    wait_for_link_poll n port w = (Some up, w', t)
    /\ stores t = []
    /\ ((forall v, In (Call (regmap_read (PCIEx_STSx port 0)) v) t ->
                   Z.testbit v 16 = false) -> up = false).
Proof.
  revert w. induction n as [|n IH]; intros w; cbn [wait_for_link_poll].
  - run_monad. eauto 6.
  - unfold dw_pcie_link_up, bind at 1. rewrite link_up_run.
    destruct (kernel_call (regmap_read (PCIEx_STSx port 0)) w) as [a w1]. cbn.
    destruct (Z.testbit a 16) eqn:Ea; run_monad.
    + exists true, w1, [Call (regmap_read (PCIEx_STSx port 0)) a].
      repeat split. intros H. specialize (H a (or_introl eq_refl)). congruence.
    + answer. destruct (IH w0) as (up & w' & t & -> & Hst & Hdown). cbn.
      eexists up, w', _. split; [reflexivity|]. split.
      * cbn. exact Hst.
      * intros H. apply Hdown. intros v Hv. apply H. cbn. auto.
Qed.

Lemma wait_for_link_spec {W : Type} {K : Kernel W}
    (n : nat) (port : Z) (w : W) :
  exists rc w' t,
    dw_pcie_wait_for_link n port w = (Some rc, w', t)
    /\ stores t = []
    /\ ((forall v, In (Call (regmap_read (PCIEx_STSx port 0)) v) t ->
                   Z.testbit v 16 = false) -> rc = - ETIMEDOUT).
Proof.
  unfold dw_pcie_wait_for_link, bind at 1.
  destruct (wait_for_link_poll_spec n port w) as (up & w' & t & -> & Hst & Hdown).
  destruct up; run_monad.
  - exists 0, w', (t ++ []). split; [reflexivity|]. split.
    + rewrite stores_app, Hst. reflexivity.
    + intros H. assert (true = false); [|discriminate].
      apply Hdown. intros v Hv. apply H. apply in_or_app. auto.
  - eexists _, w', _. split; [reflexivity|]. split.
    + rewrite stores_app, Hst. reflexivity.
    + reflexivity.
Qed.

Lemma stores_cons (e : event) (t : list event) :
  stores (e :: t) =
  match e with
  | Call c _ => if is_store c then [c] else []
  | Log _ _ => []
  end ++ stores t.
Proof.
  unfold stores, calls. destruct e as [c a|l msg]; cbn; [|reflexivity].
  destruct (is_store c); reflexivity.
Qed.

(** Clearing the device type field and setting root complex leaves exactly
    root complex in the field. *)
Lemma dev_type_is_rc (v : Z) :
  Z.land (Z.lor (Z.land v (not32 CFG0_DEV_TYPE_MASK)) CFG0_DEV_TYPE_RC)
         CFG0_DEV_TYPE_MASK = CFG0_DEV_TYPE_RC.
Proof.
  rewrite Z.land_lor_distr_l, <- Z.land_assoc.
  change (Z.land (not32 CFG0_DEV_TYPE_MASK) CFG0_DEV_TYPE_MASK) with 0.
  rewrite Z.land_0_r. reflexivity.
Qed.

(** Two registers of one port's configuration bank never coincide. *)
Lemma CFG0_neq_CFG5 (port : Z) : PCIEx_CFGx port 0 <> PCIEx_CFGx port 5.
Proof.
  unfold PCIEx_CFGx, u32. change (2 ^ 32) with 4294967296.
  intros H.
  pose proof (Z.div_mod (port * 32 + 0 * 4) 4294967296 ltac:(lia)).
  pose proof (Z.div_mod (port * 32 + 5 * 4) 4294967296 ltac:(lia)).
  lia.
Qed.

Arguments dw_pcie_wait_for_link : simpl never.

Arguments stores : simpl never.

(** Membership in an explicit list. *)
Ltac in_list :=
  cbn; repeat first [left; reflexivity | right];
  try (apply in_or_app; left; in_list).

(** Read the tests of the link-up bit as [Z.testbit]. *)
Ltac link_bits :=
  repeat match goal with
    | E : (Z.land (u32 ?a) STS0_RDLH_LINK_UP =? STS0_RDLH_LINK_UP) = _ |- _ =>
        unfold STS0_RDLH_LINK_UP in E;
        rewrite land_BIT_eqb, testbit_u32 in E by lia; cbn in E
    end.

(** Run a computation recorded in hypothesis [H] to its end, one case per
    path through it. *)
Ltac exec H :=
  repeat first
    [ match type of H with
      | context [kernel_call ?c ?w] =>
          let a := fresh "a" in
          let w' := fresh "w" in
          destruct (kernel_call c w) as [a w'] eqn:?; cbn in H
      end
    | match type of H with
      | context [dw_pcie_wait_for_link ?n ?p ?w] =>
          let E := fresh "Ewait" in
          let Hst := fresh "Hstores" in
          let Hto := fresh "Htimeout" in
          destruct (wait_for_link_spec n p w) as (? & ? & ? & E & Hst & Hto);
          rewrite E in H; cbn in H
      end
    | match type of H with
      | context [if ?c then _ else _] => destruct c eqn:?; cbn in H
      end ].

Ltac start_link_paths H :=
  unfold ls1024a_pcie_start_link, ls1024a_pcie_establish_link, dw_pcie_link_up,
    ls1024a_pcie_link_up, app_regs_read, app_regs_write in H;
  unfold bind, do_call, ret, printk, dev_err, dev_dbg in H; cbn in H;
  exec H.

(** C4: when every read of the link status register made during
    [ls1024a_pcie_start_link] shows the link up, the only register store of
    the whole execution is the write of configuration register 0 with the
    device type field set to root complex and its other bits as read; in
    particular nothing is stored to configuration register 5, so the LTSSM
    enable bit is never cleared. *)
Theorem start_link_keeps_ltssm {W : Type} {K : Kernel W}
    (retries : nat) (port : Z) (w : W) :
  let r := ls1024a_pcie_start_link retries port w in
  (forall v, In (Call (regmap_read (PCIEx_STSx port 0)) v) (trace r) ->
             Z.testbit v 16 = true) ->
  exists v0 : Z,
    let cfg0 := Z.lor (Z.land (u32 v0) (not32 CFG0_DEV_TYPE_MASK)) CFG0_DEV_TYPE_RC in
    In (Call (regmap_read (PCIEx_CFGx port 0)) v0) (trace r)
    /\ stores (trace r) = [regmap_write (PCIEx_CFGx port 0) cfg0]
    /\ Z.land cfg0 CFG0_DEV_TYPE_MASK = CFG0_DEV_TYPE_RC
    /\ (forall val, ~ In (regmap_write (PCIEx_CFGx port 5) val) (stores (trace r)))
    /\ (forall mask val,
          ~ In (regmap_write_bits (PCIEx_CFGx port 5) mask val) (stores (trace r))).
Proof.
  intros r H.
  assert (r = ls1024a_pcie_start_link retries port w) as Hr by reflexivity.
  clearbody r. start_link_paths Hr; link_bits; subst r; unfold trace in *;
    cbn [snd] in *.
  all: try match goal with
    | E : Z.testbit ?a 16 = false |- _ =>
        let X := fresh in
        assert (Z.testbit a 16 = true) as X by (apply H; in_list);
        rewrite X in E; discriminate E
    end.
  all: exists a0;
    match goal with
    | |- _ /\ stores ?t = [?c] /\ _ =>
        assert (stores t = [c]) as Hs
          by (rewrite !stores_cons, !stores_app, Hstores; reflexivity)
    end;
    rewrite Hs; split; [in_list|]; split; [reflexivity|];
    split; [apply dev_type_is_rc|];
    split; intros; intros [X|[]];
    [ injection X as X _; exact (CFG0_neq_CFG5 port X) | discriminate X ].
Qed.

(** Split a membership in an explicit list into its cases. *)
Ltac in_cases H :=
  vm_compute in H;
  repeat (destruct H as [H|H]); try contradiction; try discriminate H.

Lemma start_link_keeps_ltssm_witness :
  (forall v,
      In (Call (regmap_read (PCIEx_STSx 1 0)) v)
         (trace (ls1024a_pcie_start_link 10%nat 1 linked_board)) ->
      Z.testbit v 16 = true)
  /\ exists v0 : Z,
       let r := ls1024a_pcie_start_link 10%nat 1 linked_board in
       let cfg0 :=
         Z.lor (Z.land (u32 v0) (not32 CFG0_DEV_TYPE_MASK)) CFG0_DEV_TYPE_RC in
       In (Call (regmap_read (PCIEx_CFGx 1 0)) v0) (trace r)
       /\ stores (trace r) = [regmap_write (PCIEx_CFGx 1 0) cfg0]
       /\ Z.land cfg0 CFG0_DEV_TYPE_MASK = CFG0_DEV_TYPE_RC
       /\ (forall val, ~ In (regmap_write (PCIEx_CFGx 1 5) val) (stores (trace r)))
       /\ (forall mask val,
             ~ In (regmap_write_bits (PCIEx_CFGx 1 5) mask val) (stores (trace r))).
Proof.
  assert (forall v,
             In (Call (regmap_read (PCIEx_STSx 1 0)) v)
                (trace (ls1024a_pcie_start_link 10%nat 1 linked_board)) ->
             Z.testbit v 16 = true) as Hup.
  { intros v Hin. in_cases Hin; injection Hin as <-; reflexivity. }
  split; [exact Hup|].
  exact (start_link_keeps_ltssm 10%nat 1 linked_board Hup).
Defined.

(** C9: [ls1024a_pcie_start_link] returns 0 in every world, for every port
    and every poll budget; when no read of the link status register showed
    the link up, so that the wait timed out, the failure is in the log and
    the return value is still 0. *)
Theorem start_link_returns_zero {W : Type} {K : Kernel W}
    (retries : nat) (port : Z) (w : W) :
  let r := ls1024a_pcie_start_link retries port w in
  result r = Some 0
  /\ ((forall v, In (Call (regmap_read (PCIEx_STSx port 0)) v) (trace r) ->
                 Z.testbit v 16 = false) ->
      In (Log KERN_ERR "Link not up after reconfiguration\n") (trace r)).
Proof.
  intros r.
  assert (r = ls1024a_pcie_start_link retries port w) as Hr by reflexivity.
  clearbody r. start_link_paths Hr; link_bits; subst r; unfold trace, result;
    cbn [fst snd]; (split; [reflexivity|]); intros H.
  all: try match goal with
    | E : Z.testbit ?a 16 = true |- _ =>
        let X := fresh in
        assert (Z.testbit a 16 = false) as X by (apply H; in_list);
        rewrite X in E; discriminate E
    end.
  - cbn. repeat right. apply in_or_app. left. apply in_or_app. right. in_list.
  - assert (x = - ETIMEDOUT) as ->.
    { apply Htimeout. intros v Hv. apply H. cbn. repeat right.
      apply in_or_app. left. apply in_or_app. left. exact Hv. }
    discriminate.
Qed.

Lemma start_link_returns_zero_witness :
  result (ls1024a_pcie_start_link 10%nat 0 quiet_board) = Some 0
  /\ In (Log KERN_ERR "Link not up after reconfiguration\n")
        (trace (ls1024a_pcie_start_link 10%nat 0 quiet_board)).
Proof.
  destruct (start_link_returns_zero 10%nat 0 quiet_board) as [Hret Hlog].
  split; [exact Hret|].
  apply Hlog. intros v Hin. in_cases Hin; injection Hin as <-; reflexivity.
Defined.

(** ** Probe *)

(** Rules to run a computation one step at a time, keeping its
    continuation folded. *)
Section Rules.
Context {W : Type} {K : Kernel W}.

Lemma wp_ret {A : Type} (a : A) (w : W) Q :
  Q (Some a) w [] -> wp (ret a) w Q.
Proof. exact (fun H => H). Qed.

Lemma wp_bind {A B : Type} (m : M W A) (f : A -> M W B) (w : W) Q :
  wp m w (fun r w1 t1 =>
            match r with
            | Some a => wp (f a) w1 (fun r' w2 t2 => Q r' w2 (t1 ++ t2))
            | None => Q None w1 t1
            end) ->
  wp (bind m f) w Q.
Proof.
  unfold wp, bind, result, final, trace.
  destruct (m w) as [[[a|] w1] t1]; cbn; [|exact (fun H => H)].
  destruct (f a w1) as [[r w2] t2]; cbn. exact (fun H => H).
Qed.

Lemma wp_call (c : call) (w : W) Q :
  (forall a w', Q (Some a) w' [Call c a]) -> wp (do_call c) w Q.
Proof.
  intros H. unfold wp, do_call, result, final, trace.
  destruct (kernel_call c w) as [a w']. apply H.
Qed.

Lemma wp_printk (l : loglevel) (msg : string) (w : W) Q :
  Q (Some tt) w [Log l msg] -> wp (printk l msg) w Q.
Proof. exact (fun H => H). Qed.
End Rules.

(** Turn boolean tests in the hypotheses into arithmetic facts. *)
Ltac bool_facts :=
  unfold IS_ERR, PTR_ERR, MAX_ERRNO, EPROBE_DEFER in *;
  repeat match goal with
    | H : negb _ = true |- _ => apply negb_true_iff in H
    | H : negb _ = false |- _ => apply negb_false_iff in H
    | H : (_ || _) = false |- _ => apply orb_false_iff in H; destruct H
    | H : (_ && _) = true |- _ => apply andb_true_iff in H; destruct H
    | H : (_ =? _) = true |- _ => apply Z.eqb_eq in H
    | H : (_ =? _) = false |- _ => apply Z.eqb_neq in H
    | H : (_ <? _) = true |- _ => apply Z.ltb_lt in H
    | H : (_ <? _) = false |- _ => apply Z.ltb_ge in H
    | H : (_ <=? _) = true |- _ => apply Z.leb_le in H
    | H : (_ <=? _) = false |- _ => apply Z.leb_gt in H
    end.

(** A branch whose test contradicts what is already known. *)
Ltac dead_branch := solve [exfalso; bool_facts; lia].

Ltac wp_if c :=
  first
    [ let c' := eval cbv delta [ENOMEM ENODEV EINVAL ETIMEDOUT] in c in
      let v := eval cbn in c' in
      lazymatch v with
      | true => change c with true
      | false => change c with false
      end; cbv beta iota
    | match goal with
      | H : c = _ |- _ => rewrite H
      end
    | let E := fresh "Eif" in destruct c eqn:E; try dead_branch ].

Ltac wp_step :=
  lazymatch goal with
  | |- wp (bind _ _) _ _ => apply wp_bind
  | |- wp (do_call _) _ _ =>
      apply wp_call; intros ? ?; cbv beta iota delta [fst snd]
  | |- wp (ret _) _ _ => apply wp_ret; cbv beta iota delta [fst snd]
  | |- wp (printk _ _) _ _ => apply wp_printk; cbv beta iota delta [fst snd]
  | |- wp (if ?c then _ else _) _ _ => wp_if c
  end.

Ltac wp_run := repeat wp_step.

(** *** Traces restricted to PHY calls *)

Lemma in_calls (c : call) (t : list event) :
  In c (calls t) <-> exists a, In (Call c a) t.
Proof.
  unfold calls. induction t as [|[c' a'|l msg] t IH]; cbn.
  - split; [intros []|intros [_ []]].
  - rewrite IH. split.
    + intros [->|[a H]]; eauto.
    + intros [a [H|H]]; [left; congruence|eauto].
  - rewrite IH. split.
    + intros [a H]; eauto.
    + intros [a [H|H]]; [discriminate|eauto].
Qed.






(** *** The parts of probe that make no PHY call *)

Section Quiet.
Context {W : Type} {K : Kernel W}.




End Quiet.




(** ** Reset sequencing on the board *)

(** Let the board answer the calls of the goal. *)
Ltac on_board :=
  change (@kernel_call board board_kernel) with board_call; cbn.

(** Case analysis on the next codes of the fault script. *)
Ltac script_cases :=
  unfold next_code, set_held; cbn;
  repeat match goal with
    | |- context [match ?l with [] => _ | _ :: _ => _ end] =>
        is_var l; destruct l as [|? l]; cbn
    | |- context [if negb (?c =? 0) then _ else _] =>
        is_var c; destruct (c =? 0) eqn:?; cbn
    | |- context [if ?c =? 0 then _ else _] =>
        is_var c; destruct (c =? 0) eqn:?; cbn
    end.

(** The re-assert sequence always comes back. *)
Lemma board_reset_assert_returns (b : board) :
  exists res b' t, ls1024a_reset_assert b = (Some res, b', t).
Proof.
  destruct b as [regs lines dom port scr].
  unfold ls1024a_reset_assert. run_monad. on_board.
  script_cases; eauto.
Qed.

(** When its three calls succeed it holds all three lines. *)
Lemma board_reset_assert_ok (b : board) :
  (forall i, (i < 3)%nat -> nth i (script b) 0 = 0) ->
  exists b',
    ls1024a_reset_assert b = (Some 0, b', map (fun c => Call c 0) assert_order)
    /\ full_assert b'.
Proof.
  destruct b as [regs lines dom port scr]. cbn [script]. intros Hz.
  pose proof (Hz 0%nat ltac:(lia)) as H0.
  pose proof (Hz 1%nat ltac:(lia)) as H1.
  pose proof (Hz 2%nat ltac:(lia)) as H2.
  unfold ls1024a_reset_assert. run_monad. on_board.
  destruct scr as [|c1 [|c2 [|c3 scr]]]; cbn in H0, H1, H2; subst;
    unfold next_code, set_held; cbn;
    (eexists; split; [reflexivity|intros []; reflexivity]).
Qed.

(** It holds the lines in order and stops at the first call that fails:
    call [j] is the last one made, the calls before it succeeded, and
    unless it is the third call it failed. *)
Lemma board_reset_assert_stops (b : board) :
  exists j res b' t,
    ls1024a_reset_assert b = (Some res, b', t)
    /\ (j < 3)%nat
    /\ calls t = firstn (S j) assert_order
    /\ (forall i, (i < j)%nat -> nth i (script b) 0 = 0)
    /\ ((j < 2)%nat -> nth j (script b) 0 <> 0).
Proof.
  destruct b as [regs lines dom port scr].
  unfold ls1024a_reset_assert. run_monad. on_board.
  script_cases.
  all: repeat match goal with
         | E : (_ =? 0) = true |- _ => apply Z.eqb_eq in E
         | E : (_ =? 0) = false |- _ => apply Z.eqb_neq in E
         end; subst.
  all: first
    [ exists 0%nat; do 3 eexists; split; [reflexivity|];
      split; [lia|]; split; [reflexivity|]; split;
      [ intros i Hi; lia | intros _; cbn; assumption ]
    | exists 1%nat; do 3 eexists; split; [reflexivity|];
      split; [lia|]; split; [reflexivity|]; split;
      [ intros [|i] Hi; [reflexivity|lia] | intros _; cbn; assumption ]
    | exists 2%nat; do 3 eexists; split; [reflexivity|];
      split; [lia|]; split; [reflexivity|]; split;
      [ intros [|[|i]] Hi; [reflexivity|reflexivity|lia] | intros Hj; lia ] ].
Qed.

Arguments ls1024a_reset_assert : simpl never.

(** C5 (as amended): when the deassert of line [k] (0: AXI, 1: power,
    2: registers) fails with code [e], the lines before it having been
    released, [ls1024a_reset_deassert] returns [e] after running the
    re-assert routine, whatever that routine answers.  The routine holds
    the lines in the order registers, power, AXI and stops at the first
    call that fails: the calls of the run are the [k + 1] deasserts followed
    by the first [j + 1] asserts, where the asserts before [j] succeeded and
    assert [j], unless it is the third, failed.  If the three re-assert
    calls succeed, all three are made and all three lines are held when the
    function returns. *)
Theorem reset_deassert_rolls_back (b : board) (k : nat) (e : Z) (rest : list Z) :
  (k < 3)%nat -> e <> 0 ->
  script b = repeat 0 k ++ e :: rest ->
  let r := ls1024a_reset_deassert b in
  result r = Some e
  /\ (exists j,
        (j < 3)%nat
        /\ calls (trace r) = firstn (S k) deassert_order ++ firstn (S j) assert_order
        /\ (forall i, (i < j)%nat -> nth i rest 0 = 0)
        /\ ((j < 2)%nat -> nth j rest 0 <> 0))
  /\ ((forall i, (i < 3)%nat -> nth i rest 0 = 0) ->
      full_assert (final r)
      /\ calls (trace r) = firstn (S k) deassert_order ++ assert_order).
Proof.
  intros Hk He Hs. apply Z.eqb_neq in He.
  destruct b as [regs lines dom port scr]. cbn in Hs. subst scr.
  destruct k as [|[|[|k]]]; [| | |lia]; cbn [repeat app];
    unfold ls1024a_reset_deassert; run_monad;
    on_board; unfold next_code, set_held; cbn; rewrite He; cbn.
  all: match goal with
       | |- context [ls1024a_reset_assert ?b0] =>
           split; [|split];
           [ destruct (board_reset_assert_returns b0) as (res & b' & t & ->);
             reflexivity
           | destruct (board_reset_assert_stops b0)
               as (j & res & b' & t & -> & Hj & Hcalls & Hbefore & Hat);
             exists j; cbn; rewrite app_nil_r; fold (calls t); rewrite Hcalls;
             split; [exact Hj|]; split; [reflexivity|];
             split; [exact Hbefore | exact Hat]
           | intros Hz;
             destruct (board_reset_assert_ok b0 Hz) as (b' & -> & Hfull);
             split; [exact Hfull | reflexivity] ]
       end.
Qed.

(** The power deassert fails; the re-assert succeeds, and also when its
    first call fails the failed deassert's code is returned, after that one
    assert call. *)
Lemma reset_deassert_rolls_back_witness :
  (result (ls1024a_reset_deassert (faulty_board [0; -5])) = Some (-5)
   /\ full_assert (final (ls1024a_reset_deassert (faulty_board [0; -5])))
   /\ calls (trace (ls1024a_reset_deassert (faulty_board [0; -5]))) =
        firstn 2 deassert_order ++ assert_order)
  /\ (result (ls1024a_reset_deassert (faulty_board [0; -5; -7])) = Some (-5)
      /\ exists j,
           (j < 3)%nat
           /\ calls (trace (ls1024a_reset_deassert (faulty_board [0; -5; -7]))) =
                firstn 2 deassert_order ++ firstn (S j) assert_order
           /\ (forall i, (i < j)%nat -> nth i [-7] 0 = 0)
           /\ ((j < 2)%nat -> nth j [-7] 0 <> 0)).
Proof.
  split.
  - destruct (reset_deassert_rolls_back (faulty_board [0; -5]) 1 (-5) [])
      as (Hres & _ & Hroll).
    + lia.
    + discriminate.
    + reflexivity.
    + split; [exact Hres|]. apply Hroll.
      intros [|[|[|i]]] Hi; reflexivity.
  - destruct (reset_deassert_rolls_back (faulty_board [0; -5; -7]) 1 (-5) [-7])
      as (Hres & Hrun & _).
    + lia.
    + discriminate.
    + reflexivity.
    + split; [exact Hres | exact Hrun].
Defined.

(** C5 (as stated) fails: the power deassert fails and then the first
    re-assert call fails too; the AXI line, already released, stays
    released. *)
Lemma reset_deassert_partial_release :
  result (ls1024a_reset_deassert (faulty_board [0; -5; -5])) = Some (-5)
  /\ calls (trace (ls1024a_reset_deassert (faulty_board [0; -5; -5]))) =
       [reset_control_deassert axi_reset; reset_control_deassert power_reset;
        reset_control_assert regs_reset]
  /\ held (final (ls1024a_reset_deassert (faulty_board [0; -5; -5]))) axi_reset
     = false
  /\ ~ full_assert (final (ls1024a_reset_deassert (faulty_board [0; -5; -5]))).
Proof.
  split; [vm_compute; reflexivity|].
  split; [vm_compute; reflexivity|].
  split; [vm_compute; reflexivity|].
  intros H. specialize (H axi_reset). vm_compute in H. discriminate H.
Qed.

(** ** Masking and unmasking on the board *)

Lemma reg_val_set_reg_eq (reg val : Z) (b : board) :
  reg_val (set_reg reg val b) reg = val.
Proof. unfold reg_val, set_reg. cbn. rewrite lookup_insert_eq. reflexivity. Qed.

Lemma reg_val_set_reg_ne (reg reg' val : Z) (b : board) :
  reg <> reg' -> reg_val (set_reg reg val b) reg' = reg_val b reg'.
Proof.
  intros Hne. unfold reg_val, set_reg. cbn.
  rewrite lookup_insert_ne by exact Hne. reflexivity.
Qed.

Lemma testbit_not32 (m i : Z) :
  0 <= i -> Z.testbit (not32 m) i = (i <? 32) && negb (Z.testbit m i).
Proof.
  intros Hi. unfold not32. rewrite testbit_u32 by exact Hi.
  rewrite Z.lnot_spec by exact Hi. reflexivity.
Qed.

Lemma testbit_update_bits (orig mask val i : Z) :
  0 <= i ->
  Z.testbit (update_bits orig mask val) i =
  (Z.testbit orig i && ((i <? 32) && negb (Z.testbit mask i)))
  || (Z.testbit val i && Z.testbit mask i).
Proof.
  intros Hi. unfold update_bits.
  rewrite Z.lor_spec, !Z.land_spec, testbit_not32 by exact Hi. reflexivity.
Qed.

Lemma testbit_u32_BIT (slot i : Z) :
  0 <= slot < 32 -> 0 <= i -> Z.testbit (u32 (BIT slot)) i = (i =? slot).
Proof.
  intros Hs Hi. rewrite testbit_u32 by exact Hi.
  unfold BIT. rewrite Z.shiftl_1_l, Z.pow2_bits_eqb by lia.
  rewrite (Z.eqb_sym slot i).
  destruct (Z.eqb_spec i slot) as [->|Hne].
  - destruct (Z.ltb_spec slot 32); [reflexivity|lia].
  - apply andb_false_r.
Qed.

Lemma testbit_above_u32 (e i : Z) :
  0 <= e < 2 ^ 32 -> 32 <= i -> Z.testbit e i = false.
Proof.
  intros He Hi. rewrite <- (Z.mod_small e (2 ^ 32) He).
  apply Z.mod_pow2_bits_high. lia.
Qed.

Lemma mask_irq_final (port slot : Z) (b : board) :
  final (ls1024a_pcie_mask_irq port slot b) =
  set_reg (PCIEx_INTR_EN port)
    (update_bits (reg_val b (PCIEx_INTR_EN port)) (u32 (BIT slot)) 0) b.
Proof. reflexivity. Qed.

Lemma unmask_irq_final (port slot : Z) (b : board) :
  final (ls1024a_pcie_unmask_irq port slot b) =
  set_reg (PCIEx_INTR_EN port)
    (update_bits (reg_val b (PCIEx_INTR_EN port)) (u32 (BIT slot)) (u32 (BIT slot))) b.
Proof. reflexivity. Qed.

(** C7: for every slot of the domain and every 32-bit content of the
    port's interrupt enable register, masking clears the slot's bit and
    keeps every other bit, unmasking sets the slot's bit and keeps every
    other bit, and masking then unmasking leaves the slot's bit set and
    every other bit as it started; no other register changes.  Each
    operation is one masked update of the enable register whose mask is the
    slot's bit alone. *)
Theorem mask_then_unmask (b : board) (port slot : Z) :
  0 <= slot < LS1024A_PCIE_INTC_NUM_INTS ->
  0 <= reg_val b (PCIEx_INTR_EN port) < 2 ^ 32 ->
  let en := PCIEx_INTR_EN port in
  let masked := final (ls1024a_pcie_mask_irq port slot b) in
  let unmasked := final (ls1024a_pcie_unmask_irq port slot b) in
  let both := final (ls1024a_pcie_unmask_irq port slot masked) in
  (forall i, 0 <= i ->
     Z.testbit (reg_val masked en) i =
     if i =? slot then false else Z.testbit (reg_val b en) i)
  /\ (forall i, 0 <= i ->
     Z.testbit (reg_val unmasked en) i =
     if i =? slot then true else Z.testbit (reg_val b en) i)
  /\ (forall i, 0 <= i ->
     Z.testbit (reg_val both en) i =
     if i =? slot then true else Z.testbit (reg_val b en) i)
  /\ (forall reg, reg <> en -> reg_val both reg = reg_val b reg)
  /\ calls (trace (ls1024a_pcie_mask_irq port slot b)) =
       [regmap_write_bits en (2 ^ slot) 0]
  /\ calls (trace (ls1024a_pcie_unmask_irq port slot b)) =
       [regmap_write_bits en (2 ^ slot) (2 ^ slot)].
Proof.
  unfold LS1024A_PCIE_INTC_NUM_INTS. intros Hslot He. cbv zeta.
  assert (u32 (BIT slot) = 2 ^ slot) as Hbit.
  { unfold u32, BIT. rewrite Z.shiftl_1_l. apply Z.mod_small.
    split; [apply Z.pow_nonneg; lia|apply Z.pow_lt_mono_r; lia]. }
  assert (calls (trace (ls1024a_pcie_mask_irq port slot b)) =
            [regmap_write_bits (PCIEx_INTR_EN port) (2 ^ slot) 0]
          /\ calls (trace (ls1024a_pcie_unmask_irq port slot b)) =
               [regmap_write_bits (PCIEx_INTR_EN port) (2 ^ slot) (2 ^ slot)])
    as Hcalls.
  { unfold ls1024a_pcie_mask_irq, ls1024a_pcie_unmask_irq. cbv zeta.
    rewrite Hbit. split; reflexivity. }
  rewrite !unmask_irq_final, !mask_irq_final.
  set (en := PCIEx_INTR_EN port) in *.
  set (e := reg_val b en) in *.
  rewrite !reg_val_set_reg_eq.
  assert (forall i, 0 <= i -> 32 <= i -> Z.testbit e i = false) as Hhigh
    by (intros; apply testbit_above_u32; assumption).
  split; [|split; [|split; [|split; [|exact Hcalls]]]].
  1-3: intros i Hi;
    rewrite ?testbit_update_bits, ?testbit_u32_BIT, ?Z.bits_0 by lia;
    pose proof (Hhigh i Hi) as Hh;
    destruct (Z.ltb_spec i 32); destruct (Z.eqb_spec i slot);
    destruct (Z.testbit e i); cbn; try reflexivity; try lia;
    (specialize (Hh ltac:(lia)); discriminate Hh).
  intros reg Hne. rewrite !reg_val_set_reg_ne by congruence. reflexivity.
Qed.

Lemma mask_then_unmask_witness :
  0 <= 4 < LS1024A_PCIE_INTC_NUM_INTS
  /\ 0 <= reg_val inta_intc_board (PCIEx_INTR_EN 0) < 2 ^ 32
  /\ Z.testbit
       (reg_val (final (ls1024a_pcie_unmask_irq 0 4
                          (final (ls1024a_pcie_mask_irq 0 4 inta_intc_board))))
                (PCIEx_INTR_EN 0)) 4 = true.
Proof.
  assert (0 <= 4 < LS1024A_PCIE_INTC_NUM_INTS) as Hslot
    by (unfold LS1024A_PCIE_INTC_NUM_INTS; lia).
  assert (0 <= reg_val inta_intc_board (PCIEx_INTR_EN 0) < 2 ^ 32) as He
    by (vm_compute; split; [discriminate|reflexivity]).
  split; [exact Hslot|]. split; [exact He|].
  exact (proj1 (proj2 (proj2 (mask_then_unmask inta_intc_board 0 4 Hslot He)))
           4 ltac:(lia)).
Defined.

(** ** Register layout *)

(** C8: for a port index 0 or 1 and a register number whose byte offset
    fits the 32-bit offset type, the offset macros compute the documented
    addresses, and the bit names have the documented positions. *)
Theorem register_layout (P reg : Z) :
  P = 0 \/ P = 1 ->
  0 <= reg -> 0x40 + 0xc + reg * 0x4 < 2 ^ 32 ->
  PCIEx_CFGx P reg = P * 0x20 + reg * 0x4
  /\ PCIEx_STSx P reg = 0x40 + P * 0xC + reg * 0x4
  /\ PCIEx_INTR_STS P = 0x100 + P * 0x10
  /\ PCIEx_INTR_EN P = 0x104 + P * 0x10
  /\ CFG0_DEV_TYPE_MASK = Z.ones 4
  /\ CFG0_DEV_TYPE_RC = 0x4
  /\ CFG5_APP_INIT_RST = 2 ^ 0
  /\ CFG5_LTSSM_EN = 2 ^ 1
  /\ PCIE_INTR_INTA_ASSERT = 2 ^ 0
  /\ PCIE_INTR_INTB_ASSERT = 2 ^ 2
  /\ PCIE_INTR_INTC_ASSERT = 2 ^ 4
  /\ PCIE_INTR_INTD_ASSERT = 2 ^ 6
  /\ PCIE_INTR_MSI = 2 ^ 12.
Proof.
  intros HP Hreg Hfit.
  unfold PCIEx_CFGx, PCIEx_STSx, PCIEx_INTR_STS, PCIEx_INTR_EN, u32.
  change (2 ^ 32) with 4294967296 in *.
  repeat split; try reflexivity;
    destruct HP as [-> | ->]; apply Z.mod_small; lia.
Qed.

Lemma register_layout_witness :
  PCIEx_CFGx 1 5 = 1 * 0x20 + 5 * 0x4
  /\ PCIEx_STSx 1 5 = 0x40 + 1 * 0xC + 5 * 0x4
  /\ PCIEx_INTR_STS 1 = 0x100 + 1 * 0x10
  /\ PCIEx_INTR_EN 1 = 0x104 + 1 * 0x10
  /\ CFG0_DEV_TYPE_MASK = Z.ones 4
  /\ CFG0_DEV_TYPE_RC = 0x4
  /\ CFG5_APP_INIT_RST = 2 ^ 0
  /\ CFG5_LTSSM_EN = 2 ^ 1
  /\ PCIE_INTR_INTA_ASSERT = 2 ^ 0
  /\ PCIE_INTR_INTB_ASSERT = 2 ^ 2
  /\ PCIE_INTR_INTC_ASSERT = 2 ^ 4
  /\ PCIE_INTR_INTD_ASSERT = 2 ^ 6
  /\ PCIE_INTR_MSI = 2 ^ 12.
Proof.
  apply (register_layout 1 5); [right; reflexivity | lia | lia].
Defined.


(** * Further properties of the driver *)

(** ** Sub-traces *)

Lemma keep_app (p : call -> bool) (t1 t2 : list event) :
  keep p (t1 ++ t2) = keep p t1 ++ keep p t2.
Proof. apply List.filter_app. Qed.

Lemma in_keep (p : call -> bool) (c : call) (a : Z) (t : list event) :
  p c = true -> (In (Call c a) (keep p t) <-> In (Call c a) t).
Proof.
  intros Hc. unfold keep. rewrite List.filter_In. cbn. tauto.
Qed.

Lemma in_calls_keep (p : call -> bool) (c : call) (t : list event) :
  p c = true -> (In c (calls (keep p t)) <-> In c (calls t)).
Proof.
  intros Hc. rewrite !in_calls. split; intros [a H]; exists a;
    apply (in_keep p c a t Hc); exact H.
Qed.

Lemma within_app (f : call -> bool) (t1 t2 : list event) :
  within f t1 -> within f t2 -> within f (t1 ++ t2).
Proof. intros H1 H2. apply Forall_app. split; assumption. Qed.

Lemma within_keep_nil (p f : call -> bool) (t : list event) :
  (forall c, f c = true -> p c = false) -> within f t -> keep p t = [].
Proof.
  intros Hpf H. induction H as [|[c a|l msg] t Hev Ht IH]; cbn.
  - reflexivity.
  - rewrite (Hpf c Hev). exact IH.
  - exact IH.
Qed.

Lemma within_weaken (f g : call -> bool) (t : list event) :
  (forall c, f c = true -> g c = true) -> within f t -> within g t.
Proof.
  intros Hfg H. induction H as [|[c a|l msg] t Hev Ht IH].
  - constructor.
  - constructor; [cbn; auto|exact IH].
  - constructor; [exact I|exact IH].
Qed.

(** Close a goal [within f t] for an explicit trace [t]. *)
Ltac within_explicit :=
  unfold within; cbn; repeat constructor.

(** ** Reset sequencing *)

Section ResetOutcomes.
Context {W : Type} {K : Kernel W}.

Lemma reset_assert_outcome (w : W) Q :
  (forall res w' t, assert_outcome res t -> Q (Some res) w' t) ->
  wp ls1024a_reset_assert w Q.
Proof.
  intros H. unfold ls1024a_reset_assert, dev_err. cbv zeta.
  wp_run; apply H; bool_facts; subst.
  - right. split; [assumption|]. exists 0%nat. eexists. split; reflexivity.
  - right. split; [assumption|]. exists 1%nat. eexists. split; reflexivity.
  - right. split; [assumption|]. exists 2%nat. eexists. split; reflexivity.
  - left. split; reflexivity.
Qed.

Lemma assert_outcome_within (res : Z) (t : list event) :
  assert_outcome res t -> within is_reset_assert t.
Proof.
  intros [[_ ->]|[_ (k & c & Hk & ->)]]; [within_explicit|].
  unfold assert_order in *.
  destruct k as [|[|[|[|k]]]]; cbn in Hk; try discriminate Hk;
    injection Hk as <-; within_explicit.
Qed.

Lemma reset_deassert_outcome (w : W) Q :
  (forall res w' t, deassert_outcome res t -> Q (Some res) w' t) ->
  wp ls1024a_reset_deassert w Q.
Proof.
  intros H. unfold ls1024a_reset_deassert, dev_err. cbv zeta.
  repeat first
    [ wp_step
    | apply reset_assert_outcome; intros ? ? ? ?; cbv beta iota ];
    apply H; bool_facts; subst.
  - right. split; [assumption|]. exists 0%nat. do 3 eexists.
    split; [reflexivity|]. split; [eassumption|]. cbn. rewrite app_nil_r. reflexivity.
  - right. split; [assumption|]. exists 1%nat. do 3 eexists.
    split; [reflexivity|]. split; [eassumption|]. cbn. rewrite app_nil_r. reflexivity.
  - right. split; [assumption|]. exists 2%nat. do 3 eexists.
    split; [reflexivity|]. split; [eassumption|]. cbn. rewrite app_nil_r. reflexivity.
  - left. split; reflexivity.
Qed.

Lemma deassert_outcome_within (res : Z) (t : list event) :
  deassert_outcome res t -> within is_reset_op t.
Proof.
  intros [[_ ->]|[_ (k & c & res' & t' & Hk & Ha & ->)]]; [within_explicit|].
  apply assert_outcome_within in Ha.
  apply (within_weaken _ is_reset_op) in Ha;
    [|intros []; cbn; congruence].
  unfold deassert_order in *.
  destruct k as [|[|[|[|k]]]]; cbn in Hk; try discriminate Hk;
    injection Hk as <-; cbn [firstn map app];
    repeat (constructor; [cbn; auto|]); exact Ha.
Qed.
End ResetOutcomes.

(** X1: [ls1024a_reset_assert] holds the lines in the order registers,
    power, AXI and stops at the first call that fails: it returns 0 exactly
    when all three calls answered 0, and otherwise returns the code of the
    failing call, having made no call after it and logged one message. *)
Theorem reset_assert_stops_at_first_failure {W : Type} {K : Kernel W} (w : W) :
  let r := ls1024a_reset_assert w in
  exists res, result r = Some res /\ assert_outcome res (trace r).
Proof.
  intros r. subst r.
  change (wp ls1024a_reset_assert w
            (fun o _ t => exists res, o = Some res /\ assert_outcome res t)).
  apply reset_assert_outcome. intros res w' t H. eauto.
Qed.

(** X2: [ls1024a_reset_deassert] releases the lines in the order AXI, power,
    registers; it returns 0 exactly when all three calls answered 0, and
    then makes no assert call.  When a release fails it releases nothing
    further, runs [ls1024a_reset_assert] once and returns the code of the
    failed release, whatever the re-assert returned. *)
Theorem reset_deassert_returns_first_failure {W : Type} {K : Kernel W} (w : W) :
  let r := ls1024a_reset_deassert w in
  exists res, result r = Some res /\ deassert_outcome res (trace r).
Proof.
  intros r. subst r.
  change (wp ls1024a_reset_deassert w
            (fun o _ t => exists res, o = Some res /\ deassert_outcome res t)).
  apply reset_deassert_outcome. intros res w' t H. eauto.
Qed.

(** ** PHY bring-up *)

(** X3: [ls1024a_pcie_enable_phy] returns 0 exactly when [phy_init],
    [phy_set_mode] and [phy_power_on] all answered 0, and then makes no
    other call.  Otherwise it returns the code of the first call that
    failed; it calls [phy_exit] exactly when [phy_init] had succeeded, and
    it never calls [phy_power_off]. *)
Theorem enable_phy_unwinds {W : Type} {K : Kernel W} (w : W) :
  let r := ls1024a_pcie_enable_phy w in
  exists res,
    result r = Some res
    /\ ((res = 0
         /\ trace r = [Call phy_init 0; Call phy_set_mode 0; Call phy_power_on 0])
        \/ (res <> 0
            /\ (trace r = [Call phy_init res]
                \/ (exists a, trace r =
                      [Call phy_init 0; Call phy_set_mode res; Call phy_exit a])
                \/ (exists a, trace r =
                      [Call phy_init 0; Call phy_set_mode 0;
                       Call phy_power_on res; Call phy_exit a])))).
Proof.
  intros r. subst r.
  change (wp ls1024a_pcie_enable_phy w
            (fun o _ t => exists res,
               o = Some res
               /\ ((res = 0
                    /\ t = [Call phy_init 0; Call phy_set_mode 0;
                            Call phy_power_on 0])
                   \/ (res <> 0
                       /\ (t = [Call phy_init res]
                           \/ (exists a, t =
                                 [Call phy_init 0; Call phy_set_mode res;
                                  Call phy_exit a])
                           \/ (exists a, t =
                                 [Call phy_init 0; Call phy_set_mode 0;
                                  Call phy_power_on res; Call phy_exit a])))))).
  unfold ls1024a_pcie_enable_phy. wp_run; bool_facts; subst;
    eexists; (split; [reflexivity|]); cbn.
  - right. split; [assumption|]. left. reflexivity.
  - right. split; [assumption|]. right. left. eexists. reflexivity.
  - right. split; [assumption|]. right. right. eexists. reflexivity.
  - left. split; reflexivity.
Qed.

(** X4: when [devm_phy_get] answers an error pointer or NULL,
    [ls1024a_pcie_setup_phy] makes no other call: [-EPROBE_DEFER] is passed
    on as it is, silently; any other error pointer, and NULL, is reported
    as "No available PHY" and turned into [-EINVAL]. *)
Theorem setup_phy_without_phy {W : Type} {K : Kernel W} (w : W) :
  let p := fst (kernel_call devm_phy_get w) in
  let r := ls1024a_pcie_setup_phy w in
  IS_ERR p = true \/ p = 0 ->
  result r = Some (if p =? - EPROBE_DEFER then - EPROBE_DEFER else - EINVAL)
  /\ trace r =
       Call devm_phy_get p
       :: (if p =? - EPROBE_DEFER then []
           else [Log KERN_ERR "No available PHY\n"]).
Proof.
  cbv zeta. unfold ls1024a_pcie_setup_phy, ls1024a_pcie_enable_phy. run_monad.
  answer. intros Hp. unfold PTR_ERR.
  destruct (a =? - EPROBE_DEFER) eqn:Edefer.
  - apply Z.eqb_eq in Edefer. subst a. cbn. split; reflexivity.
  - destruct Hp as [Hp| ->]; [rewrite Hp|]; cbn; split; reflexivity.
Qed.

Lemma setup_phy_without_phy_witness :
  (IS_ERR (fst (kernel_call devm_phy_get [-19])) = true
   \/ fst (kernel_call devm_phy_get [-19]) = 0)
  /\ result (ls1024a_pcie_setup_phy [-19]) = Some (- EINVAL)
  /\ trace (ls1024a_pcie_setup_phy [-19]) =
       [Call devm_phy_get (-19); Log KERN_ERR "No available PHY\n"].
Proof.
  assert (IS_ERR (fst (kernel_call devm_phy_get [-19])) = true
          \/ fst (kernel_call devm_phy_get [-19]) = 0) as Hp
    by (left; vm_compute; reflexivity).
  split; [exact Hp|].
  exact (setup_phy_without_phy [-19] Hp).
Defined.

(** ** Reset handles *)

(** Turn a summary of a sub-computation into the fact that the sub-trace
    selected by [sel] is empty. *)
Ltac quiet_for sel H :=
  apply (within_keep_nil sel) in H; [|intros []; cbn; congruence].

(** Restrict a membership hypothesis to the calls selected by [sel]. *)
Ltac project H sel :=
  match type of H with
  | In (Call ?c ?a) ?t => apply (proj2 (in_keep sel c a t eq_refl)) in H
  end;
  rewrite ?keep_app in H;
  repeat match goal with E : keep sel _ = [] |- _ => rewrite E in H end;
  cbn in H.

(** X5: when one of the three [devm_reset_control_get_exclusive] calls of
    [ls1024a_reset_setup] answers an error pointer, the function returns
    that error and no reset line is touched. *)
Theorem reset_setup_get_failure {W : Type} {K : Kernel W}
    (w : W) (line : reset_control) (p : Z) :
  let r := ls1024a_reset_setup w in
  In (Call (devm_reset_control_get_exclusive line) p) (trace r) ->
  IS_ERR p = true ->
  result r = Some (PTR_ERR p)
  /\ forall c, In c (calls (trace r)) -> is_reset_op c = false.
Proof.
  intros r. subst r.
  change (wp ls1024a_reset_setup w
            (fun o _ t =>
               In (Call (devm_reset_control_get_exclusive line) p) t ->
               IS_ERR p = true ->
               o = Some (PTR_ERR p)
               /\ forall c, In c (calls t) -> is_reset_op c = false)).
  unfold ls1024a_reset_setup, dev_err.
  repeat first
    [ wp_step
    | apply reset_assert_outcome; intros ? ? ? Ho; cbv beta iota;
      apply assert_outcome_within in Ho; quiet_for is_reset_get Ho ].
  all: intros Hin Herr; project Hin is_reset_get.
  all: repeat (destruct Hin as [Hin|Hin]); try contradiction;
    injection Hin as <- <-; try congruence.
  all: split; [reflexivity|]; cbn; intros c Hc;
    repeat (destruct Hc as [<-|Hc]); try contradiction; reflexivity.
Qed.

Lemma reset_setup_get_failure_witness :
  In (Call (devm_reset_control_get_exclusive power_reset) (-517))
     (trace (ls1024a_reset_setup [1; -517]))
  /\ IS_ERR (-517) = true
  /\ result (ls1024a_reset_setup [1; -517]) = Some (PTR_ERR (-517))
  /\ forall c, In c (calls (trace (ls1024a_reset_setup [1; -517]))) ->
               is_reset_op c = false.
Proof.
  assert (In (Call (devm_reset_control_get_exclusive power_reset) (-517))
             (trace (ls1024a_reset_setup [1; -517]))) as Hin
    by (vm_compute; tauto).
  assert (IS_ERR (-517) = true) as Herr by reflexivity.
  split; [exact Hin|]. split; [exact Herr|].
  exact (reset_setup_get_failure [1; -517] power_reset (-517) Hin Herr).
Defined.

(** ** Dispatch for every status *)

Lemma lookups_app (t1 t2 : list event) :
  lookups (t1 ++ t2) = lookups t1 ++ lookups t2.
Proof. apply flat_map_app. Qed.

Lemma handled_app (t1 t2 : list event) :
  handled (t1 ++ t2) = handled t1 ++ handled t2.
Proof. apply flat_map_app. Qed.

Lemma lookups_cons (e : event) (t : list event) :
  lookups (e :: t) =
  match e with
  | Call (irq_find_mapping hwirq) virq => [(hwirq, virq)]
  | _ => []
  end ++ lookups t.
Proof. reflexivity. Qed.

Lemma handled_cons (e : event) (t : list event) :
  handled (e :: t) =
  match e with
  | Call (generic_handle_irq virq) _ => [virq]
  | _ => []
  end ++ handled t.
Proof. reflexivity. Qed.

Arguments lookups : simpl never.
Arguments handled : simpl never.

(** One lookup, and one invocation when the lookup found a mapping. *)
Lemma handle_mapped_run {W : Type} {K : Kernel W} (hwirq : Z) (w : W) :
  exists v w' t,
    handle_mapped hwirq w = (Some tt, w', t)
    /\ lookups t = [(hwirq, v)]
    /\ handled t = (if v =? 0 then [] else [v])
    /\ stores t = [].
Proof.
  unfold handle_mapped. run_monad. answer.
  exists a. destruct (a =? 0) eqn:Ea; cbn; [|answer];
    do 2 eexists; repeat split.
Qed.

Ltac mapped_run :=
  match goal with
  | |- context [handle_mapped ?h ?w] =>
      let v := fresh "v" in
      let w' := fresh "w" in
      let t := fresh "t" in
      let E := fresh "Emap" in
      let Hl := fresh "Hlook" in
      let Hh := fresh "Hhand" in
      let Hs := fresh "Hstore" in
      destruct (handle_mapped_run h w) as (v & w' & t & E & Hl & Hh & Hs);
      rewrite E; cbn
  end.

(** No INTx assert bit is set when the test against [intx_mask] fails. *)
Lemma intx_mask_clear (s : Z) :
  Z.land s (Z.lor (Z.lor PCIE_INTR_INTA_ASSERT PCIE_INTR_INTB_ASSERT)
                  (Z.lor PCIE_INTR_INTC_ASSERT PCIE_INTR_INTD_ASSERT)) = 0 ->
  Z.testbit s 0 = false /\ Z.testbit s 2 = false
  /\ Z.testbit s 4 = false /\ Z.testbit s 6 = false.
Proof.
  intros H.
  assert (forall i, Z.testbit (Z.land s 85) i = false) as Hb
    by (intros i; change 85 with
          (Z.lor (Z.lor PCIE_INTR_INTA_ASSERT PCIE_INTR_INTB_ASSERT)
                 (Z.lor PCIE_INTR_INTC_ASSERT PCIE_INTR_INTD_ASSERT));
        rewrite H; apply Z.bits_0).
  pose proof (Hb 0) as H0. pose proof (Hb 2) as H2.
  pose proof (Hb 4) as H4. pose proof (Hb 6) as H6.
  rewrite Z.land_spec in H0, H2, H4, H6.
  change (Z.testbit 85 0) with true in H0. change (Z.testbit 85 2) with true in H2.
  change (Z.testbit 85 4) with true in H4. change (Z.testbit 85 6) with true in H6.
  rewrite andb_true_r in H0, H2, H4, H6. auto.
Qed.

(** X6: with CONFIG_PCI_MSI enabled and for every status snapshot, the
    handler looks up exactly the slots among 12, 0, 2, 4, 6 whose bit is
    set in the snapshot, in that order; it invokes exactly the non-zero
    answers of those lookups, in the same order; and its only register
    store is the write of the snapshot to the status register, made right
    after the read.  Deassert, AER, PME, hot-plug and bandwidth bits cause
    no lookup. *)
Theorem intc_handler_dispatch {W : Type} {K : Kernel W} (port : Z) (w : W) :
  let status := u32 (fst (kernel_call (regmap_read (PCIEx_INTR_STS port)) w)) in
  let r := ls1024a_pcie_intc_handler true port w in
  map fst (lookups (trace r)) = List.filter (Z.testbit status) dispatch_order
  /\ handled (trace r) =
     List.filter (fun v => negb (v =? 0)) (map snd (lookups (trace r)))
  /\ stores (trace r) = [regmap_write (PCIEx_INTR_STS port) status]
  /\ exists rest,
       calls (trace r) =
       regmap_read (PCIEx_INTR_STS port)
       :: regmap_write (PCIEx_INTR_STS port) status :: rest.
Proof.
  cbv zeta.
  unfold ls1024a_pcie_intc_handler, app_regs_read, app_regs_write.
  run_monad. answer. answer.
  change LS1024A_PCIE_INTC_MSI with 12.
  change LS1024A_PCIE_INTC_INTA with 0.
  change LS1024A_PCIE_INTC_INTB with 2.
  change LS1024A_PCIE_INTC_INTC with 4.
  change LS1024A_PCIE_INTC_INTD with 6.
  unfold PCIE_INTR_MSI, PCIE_INTR_INTA_ASSERT, PCIE_INTR_INTB_ASSERT,
    PCIE_INTR_INTC_ASSERT, PCIE_INTR_INTD_ASSERT.
  rewrite !land_BIT_nonzero by lia.
  match goal with
  | |- context [negb (Z.land ?x ?m =? 0)] =>
      destruct (negb (Z.land x m =? 0)) eqn:Ex
  end; cbn.
  all: repeat first
    [ mapped_run
    | match goal with
      | |- context [if Z.testbit ?x ?n then _ else _] =>
          destruct (Z.testbit x n) eqn:?; cbn
      end ].
  all: try (apply negb_false_iff, Z.eqb_eq, intx_mask_clear in Ex;
            destruct Ex as (? & ? & ? & ?); congruence).
  all: rewrite ?lookups_cons, ?lookups_app, ?handled_cons, ?handled_app,
         ?stores_cons, ?stores_app;
    repeat match goal with
      | E : lookups _ = _ |- _ => rewrite E; clear E
      | E : handled _ = _ |- _ => rewrite E; clear E
      | E : stores _ = _ |- _ => rewrite E; clear E
      end;
    change (lookups []) with (@nil (Z * Z));
    change (handled []) with (@nil Z);
    change (stores []) with (@nil call); cbn;
    repeat match goal with
      | |- context [?v =? 0] => is_var v; destruct (v =? 0); cbn
      end;
    (split; [reflexivity|]); (split; [reflexivity|]); (split; [reflexivity|]);
    eexists; reflexivity.
Qed.

(** ** Link training from a link that is down *)

Lemma ltssm_cleared (v : Z) :
  Z.testbit (Z.land v (not32 CFG5_LTSSM_EN)) 1 = false.
Proof.
  rewrite Z.land_spec, testbit_not32 by lia.
  change (Z.testbit CFG5_LTSSM_EN 1) with true. cbn. apply andb_false_r.
Qed.

Lemma ltssm_started (v : Z) :
  Z.testbit (Z.lor v (Z.lor CFG5_LTSSM_EN CFG5_APP_INIT_RST)) 1 = true
  /\ Z.testbit (Z.lor v (Z.lor CFG5_LTSSM_EN CFG5_APP_INIT_RST)) 0 = true.
Proof.
  rewrite !Z.lor_spec.
  change (Z.testbit (Z.lor CFG5_LTSSM_EN CFG5_APP_INIT_RST) 1) with true.
  change (Z.testbit (Z.lor CFG5_LTSSM_EN CFG5_APP_INIT_RST) 0) with true.
  rewrite !orb_true_r. split; reflexivity.
Qed.

(** X7: when every read of the link status register made during
    [ls1024a_pcie_start_link] shows the link down, the run starts with
    exactly these calls: the status read, a read of configuration register 5
    and the store of the value that read answered with the LTSSM enable bit
    cleared; a read of configuration register 0 and the store of the value
    that read answered with the device type set to root complex; the status
    read again, a second read of configuration register 5 and the store of
    the value that second read answered with the LTSSM enable and
    application-init-reset bits set.  What follows stores nothing, so these
    three are the stores of the run, in this order. *)
Theorem start_link_trains_when_down {W : Type} {K : Kernel W}
    (retries : nat) (port : Z) (w : W) :
  let r := ls1024a_pcie_start_link retries port w in
  (forall v, In (Call (regmap_read (PCIEx_STSx port 0)) v) (trace r) ->
             Z.testbit v 16 = false) ->
  exists s1 v5 a5 v0 a0 s2 v5' a5' tail,
    let off := Z.land (u32 v5) (not32 CFG5_LTSSM_EN) in
    let rc := Z.lor (Z.land (u32 v0) (not32 CFG0_DEV_TYPE_MASK)) CFG0_DEV_TYPE_RC in
    let on := Z.lor (u32 v5') (Z.lor CFG5_LTSSM_EN CFG5_APP_INIT_RST) in
    trace r =
      [Call (regmap_read (PCIEx_STSx port 0)) s1;
       Log KERN_DEBUG "No link detected (PCIE%u_STS0: 0x%x).\n";
       Call (regmap_read (PCIEx_CFGx port 5)) v5;
       Call (regmap_write (PCIEx_CFGx port 5) off) a5;
       Call (regmap_read (PCIEx_CFGx port 0)) v0;
       Call (regmap_write (PCIEx_CFGx port 0) rc) a0;
       Call (regmap_read (PCIEx_STSx port 0)) s2;
       Log KERN_DEBUG "No link detected (PCIE%u_STS0: 0x%x).\n";
       Call (regmap_read (PCIEx_CFGx port 5)) v5';
       Call (regmap_write (PCIEx_CFGx port 5) on) a5']
      ++ tail
    /\ stores tail = []
    /\ stores (trace r) =
         [regmap_write (PCIEx_CFGx port 5) off;
          regmap_write (PCIEx_CFGx port 0) rc;
          regmap_write (PCIEx_CFGx port 5) on]
    /\ Z.testbit off 1 = false
    /\ Z.land rc CFG0_DEV_TYPE_MASK = CFG0_DEV_TYPE_RC
    /\ Z.testbit on 1 = true
    /\ Z.testbit on 0 = true.
Proof.
  intros r H.
  assert (r = ls1024a_pcie_start_link retries port w) as Hr by reflexivity.
  clearbody r. start_link_paths Hr; link_bits; subst r; unfold trace in *;
    cbn [snd] in *.
  all: try match goal with
    | E : Z.testbit ?a 16 = true |- _ =>
        let X := fresh in
        assert (Z.testbit a 16 = false) as X by (apply H; in_list);
        rewrite X in E; discriminate E
    end.
  all: do 9 eexists; cbv zeta;
    (split; [cbn; reflexivity|]);
    (split;
     [ rewrite ?stores_cons, ?stores_app, Hstores; reflexivity
     | split;
       [ rewrite !stores_cons, !stores_app, Hstores; reflexivity
       | split; [apply ltssm_cleared|];
         split; [apply dev_type_is_rc|]; apply ltssm_started ] ]).
Qed.

Lemma start_link_trains_when_down_witness :
  (forall v,
      In (Call (regmap_read (PCIEx_STSx 0 0)) v)
         (trace (ls1024a_pcie_start_link 10%nat 0 quiet_board)) ->
      Z.testbit v 16 = false)
  /\ exists s1 v5 a5 v0 a0 s2 v5' a5' tail,
       let r := ls1024a_pcie_start_link 10%nat 0 quiet_board in
       let off := Z.land (u32 v5) (not32 CFG5_LTSSM_EN) in
       let rc :=
         Z.lor (Z.land (u32 v0) (not32 CFG0_DEV_TYPE_MASK)) CFG0_DEV_TYPE_RC in
       let on := Z.lor (u32 v5') (Z.lor CFG5_LTSSM_EN CFG5_APP_INIT_RST) in
       trace r =
         [Call (regmap_read (PCIEx_STSx 0 0)) s1;
          Log KERN_DEBUG "No link detected (PCIE%u_STS0: 0x%x).\n";
          Call (regmap_read (PCIEx_CFGx 0 5)) v5;
          Call (regmap_write (PCIEx_CFGx 0 5) off) a5;
          Call (regmap_read (PCIEx_CFGx 0 0)) v0;
          Call (regmap_write (PCIEx_CFGx 0 0) rc) a0;
          Call (regmap_read (PCIEx_STSx 0 0)) s2;
          Log KERN_DEBUG "No link detected (PCIE%u_STS0: 0x%x).\n";
          Call (regmap_read (PCIEx_CFGx 0 5)) v5';
          Call (regmap_write (PCIEx_CFGx 0 5) on) a5']
         ++ tail
       /\ stores tail = []
       /\ stores (trace r) =
            [regmap_write (PCIEx_CFGx 0 5) off;
             regmap_write (PCIEx_CFGx 0 0) rc;
             regmap_write (PCIEx_CFGx 0 5) on]
       /\ Z.testbit off 1 = false
       /\ Z.land rc CFG0_DEV_TYPE_MASK = CFG0_DEV_TYPE_RC
       /\ Z.testbit on 1 = true
       /\ Z.testbit on 0 = true.
Proof.
  assert (forall v,
             In (Call (regmap_read (PCIEx_STSx 0 0)) v)
                (trace (ls1024a_pcie_start_link 10%nat 0 quiet_board)) ->
             Z.testbit v 16 = false) as Hdown.
  { intros v Hin. in_cases Hin; injection Hin as <-; reflexivity. }
  split; [exact Hdown|].
  exact (start_link_trains_when_down 10%nat 0 quiet_board Hdown).
Defined.

(** ** Masking and unmasking compose *)

Lemma set_reg_set_reg (reg v1 v2 : Z) (b : board) :
  set_reg reg v2 (set_reg reg v1 b) = set_reg reg v2 b.
Proof. unfold set_reg. cbn. rewrite insert_insert_eq. reflexivity. Qed.

(** X8: on the board, operations on two different slots of a port commute:
    masking one slot and unmasking another leaves the same machine in
    either order. *)
Theorem mask_unmask_slots_commute (b : board) (port s1 s2 : Z) :
  0 <= s1 < LS1024A_PCIE_INTC_NUM_INTS ->
  0 <= s2 < LS1024A_PCIE_INTC_NUM_INTS ->
  s1 <> s2 ->
  final (ls1024a_pcie_unmask_irq port s2 (final (ls1024a_pcie_mask_irq port s1 b)))
  = final (ls1024a_pcie_mask_irq port s1 (final (ls1024a_pcie_unmask_irq port s2 b))).
Proof.
  unfold LS1024A_PCIE_INTC_NUM_INTS. intros H1 H2 Hne.
  rewrite !unmask_irq_final, !mask_irq_final.
  rewrite !reg_val_set_reg_eq, !set_reg_set_reg. f_equal.
  apply Z.bits_inj'. intros i Hi.
  rewrite !testbit_update_bits, !testbit_u32_BIT, Z.bits_0 by lia.
  destruct (Z.eqb_spec i s1); destruct (Z.eqb_spec i s2); try lia;
    destruct (i <? 32); destruct (Z.testbit (reg_val b (PCIEx_INTR_EN port)) i);
    reflexivity.
Qed.

Lemma mask_unmask_slots_commute_witness :
  final (ls1024a_pcie_unmask_irq 0 4 (final (ls1024a_pcie_mask_irq 0 2 inta_intc_board)))
  = final (ls1024a_pcie_mask_irq 0 2 (final (ls1024a_pcie_unmask_irq 0 4 inta_intc_board))).
Proof.
  apply (mask_unmask_slots_commute inta_intc_board 0 2 4);
    unfold LS1024A_PCIE_INTC_NUM_INTS; lia.
Defined.

(** X9: on the board, the last operation on a slot decides: masking or
    unmasking a slot after any earlier mask or unmask of the same slot
    leaves the machine as if the earlier operation had not been made. *)
Theorem mask_unmask_last_wins (b : board) (port slot : Z) :
  0 <= slot < LS1024A_PCIE_INTC_NUM_INTS ->
  let mask := ls1024a_pcie_mask_irq port slot in
  let unmask := ls1024a_pcie_unmask_irq port slot in
  final (mask (final (mask b))) = final (mask b)
  /\ final (mask (final (unmask b))) = final (mask b)
  /\ final (unmask (final (unmask b))) = final (unmask b)
  /\ final (unmask (final (mask b))) = final (unmask b).
Proof.
  unfold LS1024A_PCIE_INTC_NUM_INTS. intros Hs. cbv zeta.
  rewrite !unmask_irq_final, !mask_irq_final.
  rewrite !reg_val_set_reg_eq, !set_reg_set_reg.
  repeat split; f_equal; apply Z.bits_inj'; intros i Hi;
    rewrite !testbit_update_bits, !testbit_u32_BIT, ?Z.bits_0 by lia;
    destruct (Z.eqb_spec i slot); destruct (i <? 32);
    destruct (Z.testbit (reg_val b (PCIEx_INTR_EN port)) i); reflexivity.
Qed.

Lemma mask_unmask_last_wins_witness :
  final (ls1024a_pcie_unmask_irq 0 4 (final (ls1024a_pcie_mask_irq 0 4 inta_intc_board)))
  = final (ls1024a_pcie_unmask_irq 0 4 inta_intc_board).
Proof.
  apply (mask_unmask_last_wins inta_intc_board 0 4).
  unfold LS1024A_PCIE_INTC_NUM_INTS. lia.
Defined.

(** ** Probe: what each part touches *)

Section ProbeParts.
Context {W : Type} {K : Kernel W}.

Lemma reset_assert_within (w : W) Q :
  (forall res w' t, within is_reset_assert t -> Q (Some res) w' t) ->
  wp ls1024a_reset_assert w Q.
Proof.
  intros H. apply reset_assert_outcome. intros res w' t Ho.
  apply H. exact (assert_outcome_within res t Ho).
Qed.

Lemma reset_deassert_within (w : W) Q :
  (forall res w' t, within is_reset_op t -> Q (Some res) w' t) ->
  wp ls1024a_reset_deassert w Q.
Proof.
  intros H. apply reset_deassert_outcome. intros res w' t Ho.
  apply H. exact (deassert_outcome_within res t Ho).
Qed.

(** [ls1024a_reset_setup] only gets and asserts reset lines, and when it
    returns 0 it has got the three handles and held the three lines. *)
Lemma reset_setup_summary (w : W) Q :
  (forall res w' t,
      within is_reset_setup_call t ->
      (res = 0 ->
       exists a b c,
         t = [Call (devm_reset_control_get_exclusive axi_reset) a;
              Call (devm_reset_control_get_exclusive power_reset) b;
              Call (devm_reset_control_get_exclusive regs_reset) c]
             ++ map (fun c => Call c 0) assert_order) ->
      Q (Some res) w' t) ->
  wp ls1024a_reset_setup w Q.
Proof.
  intros H. unfold ls1024a_reset_setup, dev_err.
  repeat first
    [ wp_step
    | apply reset_assert_outcome; intros ? ? ? Ho; cbv beta iota ].
  1-3: apply H; [within_explicit|];
    intros Hz; exfalso; unfold IS_ERR, PTR_ERR, MAX_ERRNO in *; bool_facts; lia.
  apply H.
  - cbn [app]. repeat (constructor; [reflexivity|]).
    rewrite ?app_nil_r. apply assert_outcome_within in Ho.
    revert Ho. apply within_weaken. intros c Hc. unfold is_reset_setup_call.
    rewrite Hc. apply orb_true_r.
  - intros ->. destruct Ho as [[_ ->]|[Hne _]]; [|congruence].
    do 3 eexists. cbn. reflexivity.
Qed.

Lemma add_pcie_port_within (port : Z) (w : W) Q :
  (forall res w' t, within is_port_call t -> Q (Some res) w' t) ->
  wp (ls1024a_add_pcie_port port) w Q.
Proof.
  intros H.
  unfold ls1024a_add_pcie_port, ls1024a_pcie_init_irq, find_intc_node,
    dev_err, pr_err. cbv zeta.
  wp_run; apply H; within_explicit.
Qed.
End ProbeParts.

(** Walk through probe, summarising the parts that make no call selected
    by [sel]. *)
Ltac probe_open :=
  unfold ls1024a_pcie_probe, read_port_index, ls1024a_pcie_setup_phy,
    ls1024a_pcie_enable_phy, ls1024a_pcie_disable_phy, dev_err, dev_dbg;
  cbv zeta.

(** A test without variables is evaluated rather than split. *)
Ltac closed_test c :=
  match c with
  | context [?x] => is_var x; fail 1
  | _ =>
      let v := eval vm_compute in c in
      lazymatch v with
      | true => change c with true
      | false => change c with false
      end; cbv beta iota
  end.

Ltac probe_step_if :=
  lazymatch goal with
  | |- wp (if ?c then _ else _) _ _ => first [closed_test c | wp_if c]
  | _ => wp_step
  end.

Ltac probe_walk sel :=
  repeat first
    [ probe_step_if
    | let Hq := fresh "Hq" in
      apply reset_assert_within; intros ? ? ? Hq; cbv beta iota;
      quiet_for sel Hq
    | let Hq := fresh "Hq" in
      apply reset_deassert_within; intros ? ? ? Hq; cbv beta iota;
      quiet_for sel Hq
    | let Hq := fresh "Hq" in
      apply reset_setup_summary; intros ? ? ? Hq _; cbv beta iota;
      quiet_for sel Hq
    | let Hq := fresh "Hq" in
      apply add_pcie_port_within; intros ? ? ? Hq; cbv beta iota;
      quiet_for sel Hq ].

(** Rewrite the selected sub-trace of the goal to an explicit list. *)
Ltac keep_goal sel :=
  rewrite ?keep_app;
  repeat match goal with E : keep sel _ = [] |- _ => rewrite E end;
  cbn.

(** X10: when the "fsl,port-index" property cannot be read, or its value is
    greater than 1, probe returns [-EINVAL] having made no call but the two
    allocations and the property read: no clock, reset, PHY or register is
    touched. *)
Theorem probe_rejects_bad_port_index {W : Type} {K : Kernel W} (w : W) (a : Z) :
  let r := ls1024a_pcie_probe w in
  In (Call of_property_read_u32 a) (trace r) ->
  a < 0 \/ 1 < u32 a ->
  result r = Some (- EINVAL)
  /\ calls (trace r) = [devm_kzalloc; devm_kzalloc; of_property_read_u32].
Proof.
  intros r. subst r.
  change (wp ls1024a_pcie_probe w
            (fun o _ t =>
               In (Call of_property_read_u32 a) t ->
               a < 0 \/ 1 < u32 a ->
               o = Some (- EINVAL)
               /\ calls t = [devm_kzalloc; devm_kzalloc; of_property_read_u32])).
  probe_open. probe_walk is_port_index_read.
  all: intros Hin Hbad; project Hin is_port_index_read.
  all: repeat (destruct Hin as [Hin|Hin]); try contradiction;
    injection Hin as <-.
  all: try (split; reflexivity).
  all: exfalso; bool_facts; lia.
Qed.

Lemma probe_rejects_bad_port_index_witness :
  In (Call of_property_read_u32 2) (trace (ls1024a_pcie_probe [1; 1; 2]))
  /\ (2 < 0 \/ 1 < u32 2)
  /\ result (ls1024a_pcie_probe [1; 1; 2]) = Some (- EINVAL)
  /\ calls (trace (ls1024a_pcie_probe [1; 1; 2])) =
       [devm_kzalloc; devm_kzalloc; of_property_read_u32].
Proof.
  assert (In (Call of_property_read_u32 2) (trace (ls1024a_pcie_probe [1; 1; 2])))
    as Hin by (vm_compute; tauto).
  assert (2 < 0 \/ 1 < u32 2) as Hbad by (right; reflexivity).
  split; [exact Hin|]. split; [exact Hbad|].
  exact (probe_rejects_bad_port_index [1; 1; 2] 2 Hin Hbad).
Defined.

(** ** Probe: the clock and the PHY *)

(** X11: probe always returns, and the calls it made that enable and
    disable the clock and bring the PHY up and down, with their answers, are
    one of eight sequences.  When probe returns 0 the clock enable,
    [phy_init], [phy_set_mode] and [phy_power_on] all answered 0 and nothing
    is undone.  In every other run probe returns a non-zero code and exactly
    what had succeeded is undone, last first: a PHY whose power-on answered
    0 is powered off, a PHY whose init answered 0 is exited, a clock whose
    enable answered 0 is disabled; a step that failed is not undone. *)
Theorem probe_clock_phy_lifecycle {W : Type} {K : Kernel W} (w : W) :
  let r := ls1024a_pcie_probe w in
  exists e,
    result r = Some e
    /\ lifecycle_outcome e (keep is_lifecycle_call (trace r)).
Proof.
  intros r. subst r.
  change (wp ls1024a_pcie_probe w
            (fun o _ t =>
               exists e,
                 o = Some e /\ lifecycle_outcome e (keep is_lifecycle_call t))).
  probe_open. probe_walk is_lifecycle_call.
  all: keep_goal is_lifecycle_call.
  all: eexists; split; [reflexivity|].
  all: bool_facts; subst.
  all: solve
    [ apply lifecycle_up
    | econstructor; unfold ENOMEM, EINVAL, ENODEV, IS_ERR, PTR_ERR, MAX_ERRNO in *;
      bool_facts; lia ].
Qed.

(** ** Probe: the order of the stages *)

(** For every summarised part that makes no call selected by [sel], record
    that its sub-trace is empty. *)
Ltac nil_facts sel :=
  repeat match goal with
    | Hw : within _ ?t |- _ =>
        lazymatch goal with
        | _ : keep sel t = [] |- _ => fail
        | _ => idtac
        end;
        assert (keep sel t = [])
          by (eapply within_keep_nil; [|exact Hw]; intros []; cbn; congruence)
    end.

(** Restrict a hypothesis [In c (calls t)] to the calls selected by [sel]. *)
Ltac project_calls H sel :=
  match type of H with
  | In ?c (calls ?t) => apply (proj2 (in_calls_keep sel c t eq_refl)) in H
  end;
  rewrite ?keep_app in H;
  repeat match goal with E : keep sel _ = [] |- _ => rewrite E in H end;
  cbn in H.

(** Walk through probe keeping, for each part, what it touches and how it
    ended. *)
Ltac probe_walk_parts :=
  repeat first
    [ probe_step_if
    | let Hw := fresh "Hw" in
      apply reset_assert_within; intros ? ? ? Hw; cbv beta iota
    | let Ho := fresh "Ho" in
      apply reset_deassert_outcome; intros ? ? ? Ho; cbv beta iota
    | let Hw := fresh "Hw" in
      let Hs := fresh "Hs" in
      apply reset_setup_summary; intros ? ? ? Hw Hs; cbv beta iota
    | let Hw := fresh "Hw" in
      apply add_pcie_port_within; intros ? ? ? Hw; cbv beta iota ].

(** The outcome of a release, as what it touches. *)
Ltac release_within :=
  repeat match goal with
    | Ho : deassert_outcome ?res ?t |- _ =>
        lazymatch goal with
        | _ : within is_reset_op t |- _ => fail
        | _ => pose proof (deassert_outcome_within res t Ho)
        end
    end.

(** X12: probe enables the clock only with all three reset lines held: in
    every run that calls [clk_prepare_enable], the calls that hold or
    release a reset line or enable the clock start with the registers, power
    and AXI lines being held successfully, in that order, followed by the
    clock enable; no line is released before the clock is enabled. *)
Theorem probe_enables_clock_in_reset {W : Type} {K : Kernel W} (w : W) :
  let r := ls1024a_pcie_probe w in
  In clk_prepare_enable (calls (trace r)) ->
  exists a rest,
    keep is_reset_or_clock (trace r) =
    map (fun c => Call c 0) assert_order ++ Call clk_prepare_enable a :: rest.
Proof.
  intros r. subst r.
  change (wp ls1024a_pcie_probe w
            (fun _ _ t =>
               In clk_prepare_enable (calls t) ->
               exists a rest,
                 keep is_reset_or_clock t =
                 map (fun c => Call c 0) assert_order
                 ++ Call clk_prepare_enable a :: rest)).
  probe_open. probe_walk_parts.
  all: intros Hin; release_within; nil_facts is_clk_enable;
    nil_facts is_reset_or_clock.
  all: try solve [exfalso; project_calls Hin is_clk_enable;
                  repeat (destruct Hin as [Hin|Hin]); try contradiction;
                  discriminate Hin].
  all: bool_facts; subst;
    match goal with
    | Hs : 0 = 0 -> _ |- _ => destruct (Hs eq_refl) as (? & ? & ? & ->)
    end;
    keep_goal is_reset_or_clock; do 2 eexists; reflexivity.
Qed.

Lemma probe_enables_clock_in_reset_witness :
  In clk_prepare_enable (calls (trace (ls1024a_pcie_probe inta_intc_board)))
  /\ exists a rest,
       keep is_reset_or_clock (trace (ls1024a_pcie_probe inta_intc_board)) =
       map (fun c => Call c 0) assert_order ++ Call clk_prepare_enable a :: rest.
Proof.
  assert (In clk_prepare_enable
             (calls (trace (ls1024a_pcie_probe inta_intc_board)))) as Hin
    by (vm_compute; tauto).
  split; [exact Hin|].
  exact (probe_enables_clock_in_reset inta_intc_board Hin).
Defined.

(** X13: probe releases a reset line only after the PHY is powered: in
    every run that calls [reset_control_deassert], the first call among the
    reset releases and [phy_power_on] is a [phy_power_on] that answered
    0. *)
Theorem probe_releases_after_phy_power {W : Type} {K : Kernel W}
    (w : W) (line : reset_control) :
  let r := ls1024a_pcie_probe w in
  In (reset_control_deassert line) (calls (trace r)) ->
  exists rest, keep is_release_or_power (trace r) = Call phy_power_on 0 :: rest.
Proof.
  intros r. subst r.
  change (wp ls1024a_pcie_probe w
            (fun _ _ t =>
               In (reset_control_deassert line) (calls t) ->
               exists rest,
                 keep is_release_or_power t = Call phy_power_on 0 :: rest)).
  probe_open. probe_walk_parts.
  all: intros Hin; nil_facts is_reset_deassert; nil_facts is_release_or_power.
  all: try solve [exfalso; project_calls Hin is_reset_deassert;
                  repeat (destruct Hin as [Hin|Hin]); try contradiction;
                  discriminate Hin].
  all: bool_facts; subst; keep_goal is_release_or_power; eexists; reflexivity.
Qed.

Lemma probe_releases_after_phy_power_witness :
  In (reset_control_deassert axi_reset)
     (calls (trace (ls1024a_pcie_probe inta_intc_board)))
  /\ exists rest,
       keep is_release_or_power (trace (ls1024a_pcie_probe inta_intc_board)) =
       Call phy_power_on 0 :: rest.
Proof.
  assert (In (reset_control_deassert axi_reset)
             (calls (trace (ls1024a_pcie_probe inta_intc_board)))) as Hin
    by (vm_compute; tauto).
  split; [exact Hin|].
  exact (probe_releases_after_phy_power inta_intc_board axi_reset Hin).
Defined.

(** Walk through probe, following [ls1024a_add_pcie_port] call by call. *)
Ltac probe_walk_port :=
  unfold ls1024a_add_pcie_port, ls1024a_pcie_init_irq, find_intc_node, pr_err,
    dev_err;
  repeat first
    [ probe_step_if
    | let Hw := fresh "Hw" in
      apply reset_assert_within; intros ? ? ? Hw; cbv beta iota
    | let Ho := fresh "Ho" in
      apply reset_deassert_outcome; intros ? ? ? Ho; cbv beta iota
    | let Hw := fresh "Hw" in
      let Hs := fresh "Hs" in
      apply reset_setup_summary; intros ? ? ? Hw Hs; cbv beta iota ].

(** X14: probe hands the port to the host framework only with all three
    reset lines released and the interrupt requested: in every run that
    calls [dw_pcie_host_init], the calls that hold or release a reset line,
    request the interrupt or initialise the host start with the registers,
    power and AXI lines being held successfully, then the AXI, power and
    registers lines being released successfully, in that order, followed by
    [devm_request_irq], which did not answer a negative code, and then
    [dw_pcie_host_init]; no line is held again in between. *)
Theorem probe_host_init_after_release {W : Type} {K : Kernel W} (w : W) :
  let r := ls1024a_pcie_probe w in
  In dw_pcie_host_init (calls (trace r)) ->
  exists irq code a rest,
    keep is_reset_or_host (trace r) =
    map (fun c => Call c 0) assert_order
    ++ map (fun c => Call c 0) deassert_order
    ++ [Call (devm_request_irq irq) code; Call dw_pcie_host_init a] ++ rest
    /\ 0 <= code.
Proof.
  intros r. subst r.
  change (wp ls1024a_pcie_probe w
            (fun _ _ t =>
               In dw_pcie_host_init (calls t) ->
               exists irq code a rest,
                 keep is_reset_or_host t =
                 map (fun c => Call c 0) assert_order
                 ++ map (fun c => Call c 0) deassert_order
                 ++ [Call (devm_request_irq irq) code; Call dw_pcie_host_init a]
                 ++ rest
                 /\ 0 <= code)).
  probe_open. probe_walk_port.
  all: intros Hin; release_within; nil_facts is_host_init;
    nil_facts is_reset_or_host.
  all: try solve [exfalso; project_calls Hin is_host_init;
                  repeat (destruct Hin as [Hin|Hin]); try contradiction;
                  discriminate Hin].
  all: repeat match goal with
         | Ho : deassert_outcome _ _ |- _ =>
             destruct Ho as [[_ ->]|[Hne _]]; [|exfalso; bool_facts; lia]
         end.
  all: bool_facts; subst;
    match goal with
    | Hs : 0 = 0 -> _ |- _ => destruct (Hs eq_refl) as (? & ? & ? & ->)
    end.
  all: keep_goal is_reset_or_host; do 4 eexists;
    (split; [reflexivity|bool_facts; lia]).
Qed.

Lemma probe_host_init_after_release_witness :
  In dw_pcie_host_init (calls (trace (ls1024a_pcie_probe inta_intc_board)))
  /\ exists irq code a rest,
       keep is_reset_or_host (trace (ls1024a_pcie_probe inta_intc_board)) =
       map (fun c => Call c 0) assert_order
       ++ map (fun c => Call c 0) deassert_order
       ++ [Call (devm_request_irq irq) code; Call dw_pcie_host_init a] ++ rest
       /\ 0 <= code.
Proof.
  assert (In dw_pcie_host_init
             (calls (trace (ls1024a_pcie_probe inta_intc_board)))) as Hin
    by (vm_compute; tauto).
  split; [exact Hin|].
  exact (probe_host_init_after_release inta_intc_board Hin).
Defined.

(** ** Interrupt setup *)

Ltac init_irq_open :=
  unfold ls1024a_pcie_init_irq, find_intc_node, dev_err, pr_err; cbv zeta.

(** X15: [ls1024a_pcie_init_irq] puts back every device-tree node it
    obtained, once each and in the order obtained, on every path, and puts
    no node it did not obtain. *)
Theorem init_irq_puts_its_nodes {W : Type} {K : Kernel W} (port : Z) (w : W) :
  let r := ls1024a_pcie_init_irq port w in
  node_puts (trace r) = node_gets (trace r).
Proof.
  intros r. subst r.
  change (wp (ls1024a_pcie_init_irq port) w
            (fun _ _ t => node_puts t = node_gets t)).
  init_irq_open. repeat probe_step_if.
  all: unfold node_puts, node_gets; cbn;
    repeat match goal with E : (_ =? 0) = _ |- _ => rewrite E; clear E end;
    reflexivity.
Qed.

(** X16: when [ls1024a_pcie_init_irq] returns 0 it has made exactly these
    calls: found the controller node, looked up the child node of its port
    index, put the controller node, created a linear domain of 13
    interrupts on the child node, looked up the interrupt of the child
    node, put the child node, and requested the interrupt that lookup
    answered, successfully. *)
Theorem init_irq_success_flow {W : Type} {K : Kernel W} (port : Z) (w : W) :
  let r := ls1024a_pcie_init_irq port w in
  result r = Some 0 ->
  exists node intc domain irq x y,
    trace r =
      [Call of_find_compatible_node node;
       Call (of_get_child_by_name node port) intc;
       Call (of_node_put node) x;
       Call (irq_domain_add_linear intc LS1024A_PCIE_INTC_NUM_INTS) domain;
       Call (of_irq_get intc) irq;
       Call (of_node_put intc) y;
       Call (devm_request_irq irq) 0]
    /\ node <> 0 /\ intc <> 0 /\ domain <> 0 /\ 0 <= irq.
Proof.
  intros r. subst r.
  change (wp (ls1024a_pcie_init_irq port) w
            (fun o _ t =>
               o = Some 0 ->
               exists node intc domain irq x y,
                 t =
                   [Call of_find_compatible_node node;
                    Call (of_get_child_by_name node port) intc;
                    Call (of_node_put node) x;
                    Call (irq_domain_add_linear intc LS1024A_PCIE_INTC_NUM_INTS)
                         domain;
                    Call (of_irq_get intc) irq;
                    Call (of_node_put intc) y;
                    Call (devm_request_irq irq) 0]
                 /\ node <> 0 /\ intc <> 0 /\ domain <> 0 /\ 0 <= irq)).
  init_irq_open. repeat probe_step_if.
  all: intros Hres;
    try (injection Hres as Hres; exfalso; unfold ENODEV in *; bool_facts; lia).
  bool_facts; subst. do 6 eexists. cbn.
  split; [reflexivity|]. repeat split; assumption.
Qed.

Lemma init_irq_success_flow_witness :
  result (ls1024a_pcie_init_irq 1 [7; 8; 0; 9; 30; 0; 0]) = Some 0
  /\ exists node intc domain irq x y,
       trace (ls1024a_pcie_init_irq 1 [7; 8; 0; 9; 30; 0; 0]) =
         [Call of_find_compatible_node node;
          Call (of_get_child_by_name node 1) intc;
          Call (of_node_put node) x;
          Call (irq_domain_add_linear intc LS1024A_PCIE_INTC_NUM_INTS) domain;
          Call (of_irq_get intc) irq;
          Call (of_node_put intc) y;
          Call (devm_request_irq irq) 0]
       /\ node <> 0 /\ intc <> 0 /\ domain <> 0 /\ 0 <= irq.
Proof.
  assert (result (ls1024a_pcie_init_irq 1 [7; 8; 0; 9; 30; 0; 0]) = Some 0)
    as Hres by (vm_compute; reflexivity).
  split; [exact Hres|].
  exact (init_irq_success_flow 1 [7; 8; 0; 9; 30; 0; 0] Hres).
Defined.

(** X17: when the controller node or the port's child node is missing, or
    the interrupt domain cannot be created, [ls1024a_pcie_init_irq]
    returns [-ENODEV] and does not request the interrupt. *)
Theorem init_irq_nodev {W : Type} {K : Kernel W} (port : Z) (w : W) :
  let r := ls1024a_pcie_init_irq port w in
  In (Call of_find_compatible_node 0) (trace r)
  \/ (exists n, In (Call (of_get_child_by_name n port) 0) (trace r))
  \/ (exists n, In (Call (irq_domain_add_linear n LS1024A_PCIE_INTC_NUM_INTS) 0)
                    (trace r)) ->
  result r = Some (- ENODEV)
  /\ forall c, In c (calls (trace r)) -> is_request_irq c = false.
Proof.
  intros r. subst r.
  change (wp (ls1024a_pcie_init_irq port) w
            (fun o _ t =>
               In (Call of_find_compatible_node 0) t
               \/ (exists n, In (Call (of_get_child_by_name n port) 0) t)
               \/ (exists n,
                     In (Call (irq_domain_add_linear n LS1024A_PCIE_INTC_NUM_INTS) 0)
                        t) ->
               o = Some (- ENODEV)
               /\ forall c, In c (calls t) -> is_request_irq c = false)).
  init_irq_open. repeat probe_step_if.
  all: intros [H|[[n H]|[n H]]]; cbn in H;
    repeat (destruct H as [H|H]); try contradiction; try discriminate H;
    inversion H; subst; try (exfalso; bool_facts; lia).
  all: split; [reflexivity|]; cbn; intros c Hc;
    repeat (destruct Hc as [<-|Hc]); try contradiction; reflexivity.
Qed.

Lemma init_irq_nodev_witness :
  result (ls1024a_pcie_init_irq 0 [7; 0]) = Some (- ENODEV)
  /\ forall c, In c (calls (trace (ls1024a_pcie_init_irq 0 [7; 0]))) ->
               is_request_irq c = false.
Proof.
  apply (init_irq_nodev 0 [7; 0]).
  right. left. exists 7. vm_compute. tauto.
Defined.
